(** * A shallow embedding of the UFL symbolic kernel

    The development follows the layout of the Python package: one module
    per source file ([differentiation], [functionspace], [coefficient],
    [variable2], [apply_transforms]), preceded by the few notions that all
    of them share (exceptions, plain tuple data). *)

From Stdlib Require Import ZArith.
From stdpp Require Import base option list gmap strings pretty.

Set Warnings "-register-all,-clear-no-such-hyp".

Local Open Scope string_scope.

(** ** Exceptions and fallible computations

    Every failure of the package is a synchronous Python exception.
    [ufl.log.error] and [ufl.output.ufl_assert] raise the package's own
    exception with a message; the interpreter itself raises the others. *)

Inductive Exception :=
| UFLException (msg : string)
| AssertionError
| AttributeError (attr : string)
| NameError (name : string)
| KeyError
| IndexError
| TypeError
| ValueError.

Inductive Result (A : Type) :=
| Ok (a : A)
| Raise (e : Exception).

Arguments Ok {A} a.
Arguments Raise {A} e.

Global Instance Result_ret : MRet Result := fun A a => Ok a.

Global Instance Result_bind : MBind Result := fun A B k m =>
  match m with
  | Ok a => k a
  | Raise e => Raise e
  end.

Global Instance Result_fmap : FMap Result := fun A B f m =>
  match m with
  | Ok a => Ok (f a)
  | Raise e => Raise e
  end.

Definition raises {A} (m : Result A) : Prop := exists e, m = Raise e.
Definition returns {A} (m : Result A) : Prop := exists a, m = Ok a.

(** Modelled from the spec: [error] of [ufl.log] is not among the sources.
    A violated precondition fails at once with a descriptive error, which
    no caller recovers from: the package's exception, carrying the
    message. *)
Definition error {A} (msg : string) : Result A := Raise (UFLException msg).

(** Modelled from the spec: [ufl_assert] of [ufl.output] is not among the
    sources.  It is [error] with the message unless the condition holds. *)
Definition ufl_assert (condition : bool) (msg : string) : Result unit :=
  if condition then Ok tt else error msg.

(** Python's [assert]. *)
Definition py_assert (condition : bool) : Result unit :=
  if condition then Ok tt else Raise AssertionError.

(** Modelled from the spec: the counting base ([Counted] of [ufl.common],
    [counted_init] of [ufl.utils.counted]) is not among the sources.  A
    counted object takes the count it is given, or else the current value
    of its class counter; the counter then moves past every count handed
    out, so that it only grows.  The result is the count and the new
    value of the counter. *)
Definition counted (count : option Z) (globalcount : Z) : Z * Z :=
  let c := default globalcount count in
  (c, if bool_decide (globalcount <= c)%Z then (c + 1)%Z else globalcount).

(** ** differentiation.py: the legacy differential operators *)

Module differentiation.

(** An axis of a shape is an integer or the symbolic [DefaultDim] of
    [ufl.indexing]. *)
Inductive Dim :=
| DefaultDim
| IntDim (n : Z).

(** An [Index] is a counted symbol; Python's [set] tells indices apart
    by that count. *)
Definition Index := nat.

(** The nodes of the legacy hierarchy.  [Atom] stands for every node
    kind of the catalogue that this file does not define: all that the
    operators below ask of an operand is its shape and its free indices.
    [Variable_] is an instance of the class [Variable] imported from
    [ufl.variable], likewise known by the shape and the free indices it
    reports.  [Diff] keeps the slots [_free_indices] and [_shape] that its
    constructor fills in. *)
Inductive UFLObject :=
| Atom (shape : list Dim) (free_indices : list Index)
| Variable_ (shape : list Dim) (free_indices : list Index)
| Diff (_f _x : UFLObject) (_free_indices : list Index) (_shape : list Dim)
| Grad (_f : UFLObject)
| Div (_f : UFLObject)
| Curl (_f : UFLObject)
| Rot (_f : UFLObject).

(** A constructor argument is whatever the caller passes: a node, or
    some object outside the hierarchy. *)
Inductive Value :=
| VObject (o : UFLObject)
| VOther (repr : string).

Fixpoint free_indices (o : UFLObject) : list Index :=
  match o with
  | Atom _ fi => fi
  | Variable_ _ fi => fi
  | Diff _ _ fi _ => fi
  | Grad f => free_indices f
  | Div f => free_indices f
  | Curl f => free_indices f
  | Rot f => free_indices f
  end.

Fixpoint shape (o : UFLObject) : list Dim :=
  match o with
  | Atom sh _ => sh
  | Variable_ sh _ => sh
  | Diff _ _ _ sh => sh
  | Grad f => DefaultDim :: shape f
  | Div f => drop 1 (shape f)
  | Curl f => [DefaultDim]
  | Rot f => []
  end.

(** Modelled from the spec: [UFLObject.rank] of [ufl.base] is not among
    the sources.  The rank of a node is the number of axes of its shape. *)
Definition rank (o : UFLObject) : nat := length (shape o).

Definition operands (o : UFLObject) : list UFLObject :=
  match o with
  | Atom _ _ | Variable_ _ _ => []
  | Diff f x _ _ => [f; x]
  | Grad f | Div f | Curl f | Rot f => [f]
  end.

Definition is_Variable (o : UFLObject) : bool :=
  match o with
  | Variable_ _ _ => true
  | _ => false
  end.

(** [set(fi) ^ set(xi)]: the symmetric difference of the two index sets. *)
Definition set_of (l : list Index) : gset Index := list_to_set l.

Definition symmetric_difference (a b : gset Index) : gset Index :=
  (a ∖ b) ∪ (b ∖ a).

(** [Diff.__init__(self, f, x)]. *)
Definition Diff___init__ (f x : Value) : Result UFLObject :=
  match f with
  | VOther _ => error "Expecting an UFLObject in Diff."
  | VObject f =>
    match x with
    | VOther _ => error "Expecting a Variable in Diff."
    | VObject x =>
      ufl_assert (is_Variable x) "Expecting a Variable in Diff." ;;
      let fi := free_indices f in
      let xi := free_indices x in
      ufl_assert
        (bool_decide (size (symmetric_difference (set_of fi) (set_of xi)) = 0))
        "Repeated indices not allowed in Diff." ;;
      Ok (Diff f x (fi ++ xi) (shape f ++ shape x))
    end
  end.

Definition free_indices_msg (op : string) : string :=
  "TODO: Taking " ++ op ++ " of an expression with free indices, should this be a valid expression? Please provide examples!".

(** [Grad.__init__(self, f)]. *)
Definition Grad___init__ (f : UFLObject) : Result UFLObject :=
  ufl_assert (bool_decide (length (free_indices f) = 0))
    (free_indices_msg "gradient") ;;
  Ok (Grad f).

(** [Div.__init__(self, f)]. *)
Definition Div___init__ (f : UFLObject) : Result UFLObject :=
  ufl_assert (bool_decide (1 <= rank f)) "Can't take the divergence of a scalar." ;;
  ufl_assert (bool_decide (length (free_indices f) = 0))
    (free_indices_msg "divergence") ;;
  Ok (Div f).

(** [Curl.__init__(self, f)]. *)
Definition Curl___init__ (f : UFLObject) : Result UFLObject :=
  ufl_assert (bool_decide (rank f = 1)) "Need a vector." ;;
  ufl_assert (bool_decide (length (free_indices f) = 0))
    (free_indices_msg "curl") ;;
  Ok (Curl f).

(** [Rot.__init__(self, f)]. *)
Definition Rot___init__ (f : UFLObject) : Result UFLObject :=
  ufl_assert (bool_decide (rank f = 1)) "Need a vector." ;;
  ufl_assert (bool_decide (length (free_indices f) = 0))
    (free_indices_msg "rot") ;;
  Ok (Rot f).

(** Two index tuples share a symbol. *)
Definition share_index (fi xi : list Index) : Prop :=
  exists i, i ∈ fi /\ i ∈ xi.

(** A [SpatialDerivative] node with the slots its constructor fills in;
    [_indices] holds the index symbols of the [MultiIndex]. *)
Record SpatialDerivative := mkSpatialDerivative {
  _expression : UFLObject;
  _indices : list Index;
  _sd_shape : list Dim;
  _sd_free_indices : list Index;
  _repeated_indices : list Index;
  _dx_free_indices : list Index;
  _dx_repeated_indices : list Index
}.

(** [SpatialDerivative.__init__(self, expression, indices)].  The helper
    [extract_indices] of [ufl.indexing] is not among the sources and is
    taken as an argument: from a tuple of indices and, optionally, a
    shape it gives the free indices, the repeated indices and a shape,
    or fails. *)
Definition SpatialDerivative___init__
    (extract_indices : list Index -> option (list Dim) ->
                       Result (list Index * list Index * list Dim))
    (expression : UFLObject) (indices : list Index) : Result SpatialDerivative :=
  dx ← extract_indices indices None;
  let '(dx_free, dx_repeated, _) := dx in
  all ← extract_indices (free_indices expression ++ dx_free)%list
                        (Some (shape expression));
  let '(free, repeated, sh) := all in
  Ok (mkSpatialDerivative expression indices sh free repeated dx_free dx_repeated).

(** [SpatialDerivative.repeated_index_dimensions(self, default_dim)]: a
    dictionary filled by one assignment per repeated index. *)
Definition repeated_index_dimensions {D : Type} (self : SpatialDerivative)
    (default_dim : D) : gmap Index D :=
  foldl (fun d i => <[i := default_dim]> d) ∅ (_repeated_indices self).

End differentiation.

(** ** Plain tuple data

    Hash data and signature data are nested tuples of strings, integers
    and [None].  Python compares such tuples item by item, which is
    structural equality. *)

Inductive Data :=
| DNone
| DStr (s : string)
| DInt (z : Z)
| DTuple (items : list Data).

Fixpoint Data_eqb (a b : Data) {struct a} : bool :=
  match a, b with
  | DNone, DNone => true
  | DStr s, DStr t => bool_decide (s = t)
  | DInt x, DInt y => bool_decide (x = y)
  | DTuple l, DTuple k =>
    (fix go (l k : list Data) {struct l} : bool :=
       match l, k with
       | [], [] => true
       | x :: l, y :: k => Data_eqb x y && go l k
       | _, _ => false
       end) l k
  | _, _ => false
  end.

(** ** functionspace.py: the function-space hierarchy *)

Module functionspace.

(** What [element.cell()] may return: nothing, one cell, or the tuple of
    cells of a mixed element. *)
Inductive CellValue (Cell : Type) :=
| NoCell
| OneCell (c : Cell)
| MixedCell (cs : list Cell).

Arguments NoCell {Cell}.
Arguments OneCell {Cell} c.
Arguments MixedCell {Cell} cs.

(** The [domain] argument of a function space: [None], one handle, or a
    tuple of handles. *)
Inductive DomainArg (Domain : Type) :=
| DomainNone
| DomainOne (d : Domain)
| DomainTuple (ds : list Domain).

Arguments DomainNone {Domain}.
Arguments DomainOne {Domain} d.
Arguments DomainTuple {Domain} ds.

Global Instance DomainArg_eq_dec {Domain} `{EqDecision Domain} :
  EqDecision (DomainArg Domain).
Proof. solve_decision. Defined.

(** Cells, domains and elements are opaque handles of collaborating
    modules.  The class lists what this package calls on them.
    [domain_ufl_cell d = None] says that the object [d] has no
    [ufl_cell] attribute.  A renumbering reaches a domain as the
    dictionary from domains to their canonical numbers. *)
Class Collaborators (Cell Domain Element : Type) := {
  Cell_eq_dec :: EqDecision Cell;
  Domain_eq_dec :: EqDecision Domain;
  Element_eq_dec :: EqDecision Element;
  domain_ufl_cell : Domain -> option Cell;
  domain_hash_data : Domain -> Data;
  domain_signature_data : Domain -> (Domain -> option Z) -> Result Data;
  join_domains : list Domain -> Result (list Domain);
  default_domain : option Cell -> Result Domain;
  element_cell : Element -> CellValue Cell;
  element_value_shape : Element -> list Z;
  element_hash_data : Element -> Data;
  element_signature_data : Element -> Data
}.

Section FunctionSpaces.

Context {Cell Domain Element : Type} `{!Collaborators Cell Domain Element}.

(** The three concrete classes below [AbstractFunctionSpace], with the
    attributes their constructors store.  An element may be [None]. *)
Inductive AbstractFunctionSpace :=
| FunctionSpace (_ufl_domain : DomainArg Domain) (_ufl_element : option Element)
| TensorProductFunctionSpace (_ufl_function_spaces : list AbstractFunctionSpace)
| MixedFunctionSpace (_ufl_function_spaces : list AbstractFunctionSpace)
                     (_ufl_elements : list (option Element)).

Inductive SpaceClass :=
| FunctionSpace_class
| TensorProductFunctionSpace_class
| MixedFunctionSpace_class.

Global Instance SpaceClass_eq_dec : EqDecision SpaceClass.
Proof. solve_decision. Defined.

Definition type (V : AbstractFunctionSpace) : SpaceClass :=
  match V with
  | FunctionSpace _ _ => FunctionSpace_class
  | TensorProductFunctionSpace _ => TensorProductFunctionSpace_class
  | MixedFunctionSpace _ _ => MixedFunctionSpace_class
  end.

(** [element.cell()], where [element] may be [None]. *)
Definition cell_of (element : option Element) : Result (CellValue Cell) :=
  match element with
  | Some e => Ok (element_cell e)
  | None => Raise (AttributeError "cell")
  end.

(** [c != domain_cell], for [domain_cell] a cell. *)
Definition cell_ne (c : CellValue Cell) (domain_cell : Cell) : bool :=
  match c with
  | OneCell c' => negb (bool_decide (c' = domain_cell))
  | NoCell | MixedCell _ => true
  end.

(** The local function [check_domain(d, c)] of [FunctionSpace.__init__]. *)
Definition check_domain (d : Domain) (c : CellValue Cell) : Result unit :=
  match domain_ufl_cell d with
  | None => error "Expected non-abstract domain for initalization of function space."
  | Some domain_cell =>
    if cell_ne c domain_cell
    then error "Non-matching cell of finite element and domain."
    else Ok tt
  end.

(** [for d, c in zip(domain, cell): check_domain(d, c)]. *)
Fixpoint check_domains (pairs : list (Domain * Cell)) : Result unit :=
  match pairs with
  | [] => Ok tt
  | (d, c) :: rest => check_domain d (OneCell c) ;; check_domains rest
  end.

(** [FunctionSpace.__init__(self, domain, element)]. *)
Definition FunctionSpace___init__ (domain : DomainArg Domain)
    (element : option Element) : Result AbstractFunctionSpace :=
  match domain with
  | DomainNone => Ok tt
  | DomainTuple ds =>
    cell ← cell_of element;
    match cell with
    | MixedCell cs =>
      if bool_decide (length ds ≠ length cs)
      then error "Mixed cell (tuple) and mixed domain (tuple) must have the same length."
      else check_domains (zip ds cs)
    | NoCell | OneCell _ =>
      error "Must have a mixed cell (tuple) if we have a mixed domain (tuple)."
    end
  | DomainOne d =>
    c ← cell_of element;
    check_domain d c
  end ;;
  Ok (FunctionSpace domain element).

(** [TensorProductFunctionSpace.__init__(self, *function_spaces)]. *)
Definition TensorProductFunctionSpace___init__
    (function_spaces : list AbstractFunctionSpace) : Result AbstractFunctionSpace :=
  Ok (TensorProductFunctionSpace function_spaces).

(** The loop of [MixedFunctionSpace.__init__] that fills [_ufl_elements]. *)
Fixpoint collect_elements (args : list AbstractFunctionSpace)
    : Result (list (option Element)) :=
  match args with
  | [] => Ok []
  | FunctionSpace _ e :: rest => es ← collect_elements rest; Ok (e :: es)
  | _ :: _ => error "Expecting FunctionSpace objects"
  end.

(** [MixedFunctionSpace.__init__(self, *args)]. *)
Definition MixedFunctionSpace___init__ (args : list AbstractFunctionSpace)
    : Result AbstractFunctionSpace :=
  es ← collect_elements args;
  Ok (MixedFunctionSpace args es).

Definition ufl_sub_spaces (V : AbstractFunctionSpace) : list AbstractFunctionSpace :=
  match V with
  | FunctionSpace _ _ => []
  | TensorProductFunctionSpace l => l
  | MixedFunctionSpace l _ => l
  end.

(** [MixedFunctionSpace.ufl_elements]; the other classes have no such
    method. *)
Definition ufl_elements (V : AbstractFunctionSpace) : Result (list (option Element)) :=
  match V with
  | MixedFunctionSpace _ es => Ok es
  | _ => Raise (AttributeError "ufl_elements")
  end.

Definition multiple_elements_msg : string :=
  "Found multiple elements. Cannot return only one.
            Consider building a FunctionSpace from a MixedElement
            in case of homogeneous dimension.".

(** [FunctionSpace.ufl_element] and [MixedFunctionSpace.ufl_element]. *)
Definition ufl_element (V : AbstractFunctionSpace) : Result (option Element) :=
  match V with
  | FunctionSpace _ e => Ok e
  | TensorProductFunctionSpace _ => Raise (AttributeError "ufl_element")
  | MixedFunctionSpace _ es =>
    if bool_decide (length es = 1)
    then match es with
         | e :: _ => Ok e
         | [] => Raise IndexError
         end
    else error multiple_elements_msg
  end.

(** [t[i]] on a tuple: a negative index counts from the end, and an index
    outside the tuple raises. *)
Definition tuple_getitem {A} (t : list A) (i : Z) : Result A :=
  let n := Z.of_nat (length t) in
  let j := if bool_decide (i < 0)%Z then (i + n)%Z else i in
  if bool_decide (0 <= j < n)%Z
  then match t !! Z.to_nat j with
       | Some a => Ok a
       | None => Raise IndexError
       end
  else Raise IndexError.

(** [MixedFunctionSpace.ufl_sub_space(i)]. *)
Definition ufl_sub_space (V : AbstractFunctionSpace) (i : Z)
    : Result AbstractFunctionSpace :=
  match V with
  | MixedFunctionSpace l _ => tuple_getitem l i
  | _ => Raise (AttributeError "ufl_sub_space")
  end.

Definition num_sub_spaces (V : AbstractFunctionSpace) : Result nat :=
  match V with
  | MixedFunctionSpace l _ => Ok (length l)
  | _ => Raise (AttributeError "num_sub_spaces")
  end.

(** [FunctionSpace.mixed]: is the domain a tuple? *)
Definition mixed (V : AbstractFunctionSpace) : Result bool :=
  match V with
  | FunctionSpace (DomainTuple _) _ => Ok true
  | FunctionSpace _ _ => Ok false
  | _ => Raise (AttributeError "mixed")
  end.

Fixpoint ufl_domains (V : AbstractFunctionSpace) : Result (list Domain) :=
  match V with
  | FunctionSpace (DomainTuple ds) _ => Ok ds
  | FunctionSpace DomainNone _ => Ok []
  | FunctionSpace (DomainOne d) _ => Ok [d]
  | TensorProductFunctionSpace _ => Raise (AttributeError "ufl_domains")
  | MixedFunctionSpace l _ =>
    domainlist ← (fix extend (l : list AbstractFunctionSpace) : Result (list Domain) :=
                    match l with
                    | [] => Ok []
                    | s :: l => ds ← ufl_domains s; rest ← extend l; Ok (ds ++ rest)%list
                    end) l;
    join_domains domainlist
  end.

Definition ufl_domain (V : AbstractFunctionSpace) : Result (DomainArg Domain) :=
  match V with
  | FunctionSpace d _ => Ok d
  | TensorProductFunctionSpace _ => Raise (AttributeError "ufl_domain")
  | MixedFunctionSpace _ _ =>
    domains ← ufl_domains V;
    match domains with
    | [d] => Ok (DomainOne d)
    | _ :: _ => error "Found multiple domains, cannot return just one."
    | [] => Ok DomainNone
    end
  end.

Definition opt_data {A} (f : A -> Data) (o : option A) : Data :=
  match o with
  | None => DNone
  | Some a => f a
  end.

Fixpoint _ufl_hash_data_ (V : AbstractFunctionSpace) : Data :=
  match V with
  | FunctionSpace domain element =>
    let ddata :=
      match domain with
      | DomainNone => DNone
      | DomainTuple ds => DTuple (map domain_hash_data ds)
      | DomainOne d => domain_hash_data d
      end in
    let edata := opt_data element_hash_data element in
    DTuple [DStr "FunctionSpace"; ddata; edata]
  | TensorProductFunctionSpace l =>
    DTuple (DStr "TensorProductFunctionSpace" :: map _ufl_hash_data_ l)
  | MixedFunctionSpace l _ =>
    DTuple (DStr "MixedFunctionSpace" :: map _ufl_hash_data_ l)
  end.

(** [tuple(x._ufl_signature_data_(renumbering) for x in xs)]. *)
Fixpoint collect {A} (f : A -> Result Data) (xs : list A) : Result (list Data) :=
  match xs with
  | [] => Ok []
  | x :: xs => d ← f x; ds ← collect f xs; Ok (d :: ds)
  end.

Fixpoint _ufl_signature_data_ (V : AbstractFunctionSpace)
    (renumbering : Domain -> option Z) : Result Data :=
  match V with
  | FunctionSpace domain element =>
    ddata ← match domain with
            | DomainNone => Ok DNone
            | DomainTuple ds =>
              DTuple <$> collect (fun d => domain_signature_data d renumbering) ds
            | DomainOne d => domain_signature_data d renumbering
            end;
    let edata := opt_data element_signature_data element in
    Ok (DTuple [DStr "FunctionSpace"; ddata; edata])
  | TensorProductFunctionSpace l =>
    ds ← (fix go (l : list AbstractFunctionSpace) : Result (list Data) :=
            match l with
            | [] => Ok []
            | W :: l => d ← _ufl_signature_data_ W renumbering; ds ← go l; Ok (d :: ds)
            end) l;
    Ok (DTuple (DStr "TensorProductFunctionSpace" :: ds))
  | MixedFunctionSpace l _ =>
    ds ← (fix go (l : list AbstractFunctionSpace) : Result (list Data) :=
            match l with
            | [] => Ok []
            | W :: l => d ← _ufl_signature_data_ W renumbering; ds ← go l; Ok (d :: ds)
            end) l;
    Ok (DTuple (DStr "MixedFunctionSpace" :: ds))
  end.

(** Modelled from the spec: the decorator [attach_operators_from_hash_data]
    of [ufl.core.ufl_type] is not among the sources.  Following its name
    and the structural-equality contract of the hierarchy, it derives
    [__eq__] from the hash data: two spaces are equal when they have the
    same class and equal hash data, never by identity. *)
Definition AbstractFunctionSpace___eq__ (V W : AbstractFunctionSpace) : bool :=
  bool_decide (type V = type W) && Data_eqb (_ufl_hash_data_ V) (_ufl_hash_data_ W).

(** Two spaces with the same attributes throughout.  Spaces carry no
    identity of their own in this model; this is used only to tell
    whether two coefficients are one object. *)
Fixpoint same_space (V W : AbstractFunctionSpace) {struct V} : bool :=
  let same_spaces :=
    fix go (l k : list AbstractFunctionSpace) {struct l} : bool :=
      match l, k with
      | [], [] => true
      | V :: l, W :: k => same_space V W && go l k
      | _, _ => false
      end in
  match V, W with
  | FunctionSpace d e, FunctionSpace d' e' =>
    bool_decide (d = d') && bool_decide (e = e')
  | TensorProductFunctionSpace l, TensorProductFunctionSpace k => same_spaces l k
  | MixedFunctionSpace l es, MixedFunctionSpace k es' =>
    same_spaces l k && bool_decide (es = es')
  | _, _ => false
  end.



(** The number of distinct elements among the sub-spaces of a mixed
    space. *)
Definition distinct_elements (V : AbstractFunctionSpace) : nat :=
  match V with
  | MixedFunctionSpace _ es => length (remove_dups es)
  | _ => 0
  end.

End FunctionSpaces.

Arguments AbstractFunctionSpace : clear implicits.

End functionspace.

(** ** coefficient.py: the Coefficient terminal *)

Module coefficient.

Import functionspace.

Section Coefficients.

Context {Cell Domain Element : Type} `{!Collaborators Cell Domain Element}.

Abbreviation AbstractFunctionSpace := (AbstractFunctionSpace Domain Element).

(** A coefficient object: its identity ([id(self)]) and the attributes
    that [__init__] stores.  The parent is another coefficient or
    [None]. *)
Inductive Coefficient := mkCoefficient {
  object_id : nat;
  _count : Z;
  _ufl_function_space : AbstractFunctionSpace;
  _ufl_shape : list Z;
  _part : option Z;
  _parent : option Coefficient
}.

(** The values that meet in a signature tuple or on the right of [==]. *)
Inductive Value :=
| VNone
| VStr (s : string)
| VInt (z : Z)
| VCoefficient (c : Coefficient)
| VTuple (items : list Value).

Fixpoint of_data (d : Data) : Value :=
  match d with
  | DNone => VNone
  | DStr s => VStr s
  | DInt z => VInt z
  | DTuple l => VTuple (map of_data l)
  end.

Definition of_option {A} (f : A -> Value) (o : option A) : Value :=
  match o with
  | None => VNone
  | Some a => f a
  end.

(** The process-wide state that construction touches: the class
    attribute [Coefficient._globalcount] and the allocator of object
    identities. *)
Record Globals := mkGlobals {
  _globalcount : Z;
  next_object_id : nat
}.

(** [counted_init(self, count, Coefficient)]. *)
Definition counted_init (count : option Z) (g : Globals) : Z * Globals :=
  let '(c, n) := counted count (_globalcount g) in
  (c, mkGlobals n (next_object_id g)).

(** What a caller may pass as [function_space]. *)
Inductive SpaceArg :=
| ArgElement (element : Element)
| ArgSpace (V : AbstractFunctionSpace)
| ArgOther (repr : string).

(** The branch of [__init__] that turns the argument into a space. *)
Definition resolve_function_space (function_space : SpaceArg)
    : Result AbstractFunctionSpace :=
  match function_space with
  | ArgElement element =>
    domain ← match element_cell element with
             | MixedCell cs =>
               DomainTuple <$> mapM (fun c => default_domain (Some c)) cs
             | OneCell c => DomainOne <$> default_domain (Some c)
             | NoCell => DomainOne <$> default_domain None
             end;
    FunctionSpace___init__ domain (Some element)
  | ArgSpace V => Ok V
  | ArgOther _ => error "Expecting a FunctionSpace or FiniteElement."
  end.

Definition value_shape_of (element : option Element) : Result (list Z) :=
  match element with
  | Some e => Ok (element_value_shape e)
  | None => Raise (AttributeError "value_shape")
  end.

(** [Coefficient.__init__(self, function_space, count, part, parent)].
    The counter is advanced before the argument is looked at, so it moves
    even when construction fails. *)
Definition Coefficient___init__ (function_space : SpaceArg) (count : option Z)
    (part : option Z) (parent : option Coefficient) (g : Globals)
    : Result Coefficient * Globals :=
  let self := next_object_id g in
  let '(count, g) := counted_init count g in
  let g := mkGlobals (_globalcount g) (S (next_object_id g)) in
  (V ← resolve_function_space function_space;
   element ← ufl_element V;
   shape ← value_shape_of element;
   Ok (mkCoefficient self count V shape part parent),
   g).

Definition count (self : Coefficient) : Z := _count self.
Definition part (self : Coefficient) : option Z := _part self.
Definition parent (self : Coefficient) : option Coefficient := _parent self.
Definition ufl_shape (self : Coefficient) : list Z := _ufl_shape self.
Definition ufl_function_space (self : Coefficient) : AbstractFunctionSpace :=
  _ufl_function_space self.

Definition ufl_domain (self : Coefficient) : Result (DomainArg Domain) :=
  functionspace.ufl_domain (_ufl_function_space self).

Definition ufl_element (self : Coefficient) : Result (option Element) :=
  functionspace.ufl_element (_ufl_function_space self).

Definition ufl_domains (self : Coefficient) : Result (list Domain) :=
  functionspace.ufl_domains (_ufl_function_space self).

(** A renumbering is a dictionary from counted objects to canonical
    integers; coefficients and domains are its keys. *)
Record Renumbering := mkRenumbering {
  coefficient_numbers : Coefficient -> option Z;
  domain_numbers : Domain -> option Z
}.

(** [renumbering[self]]. *)
Definition getitem (renumbering : Renumbering) (self : Coefficient) : Result Z :=
  match coefficient_numbers renumbering self with
  | Some n => Ok n
  | None => Raise KeyError
  end.

(** [Coefficient._ufl_signature_data_(self, renumbering)]. *)
Definition _ufl_signature_data_ (self : Coefficient) (renumbering : Renumbering)
    : Result Value :=
  count ← getitem renumbering self;
  fsdata ← functionspace._ufl_signature_data_ (_ufl_function_space self)
             (domain_numbers renumbering);
  Ok (VTuple [VStr "Coefficient"; VInt count; of_option VInt (_part self);
              of_option VCoefficient (_parent self); of_data fsdata]).

(** [self is other]: one object, hence one identity and the same
    attributes. *)
Fixpoint is_ (self other : Coefficient) {struct self} : bool :=
  bool_decide (object_id self = object_id other)
  && bool_decide (_count self = _count other)
  && same_space (_ufl_function_space self) (_ufl_function_space other)
  && bool_decide (_ufl_shape self = _ufl_shape other)
  && bool_decide (_part self = _part other)
  && match _parent self, _parent other with
     | None, None => true
     | Some p, Some q => is_ p q
     | _, _ => false
     end.

(** [Coefficient.__eq__(self, other)]. *)
Definition Coefficient___eq__ (self : Coefficient) (other : Value) : bool :=
  match other with
  | VCoefficient other =>
    if is_ self other then true
    else bool_decide (_count self = _count other)
         && AbstractFunctionSpace___eq__ (_ufl_function_space self)
                                         (_ufl_function_space other)
  | _ => false
  end.

(** [a == b] on the values of a signature tuple: tuples item by item,
    coefficients by [Coefficient.__eq__]. *)
Fixpoint Value_eq (a b : Value) {struct a} : bool :=
  match a, b with
  | VNone, VNone => true
  | VStr s, VStr t => bool_decide (s = t)
  | VInt x, VInt y => bool_decide (x = y)
  | VCoefficient c, _ => Coefficient___eq__ c b
  | VTuple l, VTuple k =>
    (fix go (l k : list Value) {struct l} : bool :=
       match l, k with
       | [], [] => true
       | x :: l, y :: k => Value_eq x y && go l k
       | _, _ => false
       end) l k
  | _, _ => false
  end.

(** [Coefficient.mixed]. *)
Definition mixed (self : Coefficient) : Result bool :=
  functionspace.mixed (ufl_function_space self).

(** [str(n)] for an integer: its decimal digits, after a minus sign when
    it is negative. *)
Definition str_int (n : Z) : string := pretty n.

(** [Coefficient.__str__(self)]. *)
Definition Coefficient___str__ (self : Coefficient) : string :=
  let count := str_int (_count self) in
  if bool_decide (String.length count = 1)
  then "w_" +:+ count
  else "w_{" +:+ count +:+ "}".

(** The comprehension of [Coefficients]: one coefficient per index, built
    in order; the first failure ends it. *)
Fixpoint Coefficients_comprehension (function_space : AbstractFunctionSpace)
    (indices : list nat) (g : Globals) : Result (list Coefficient) * Globals :=
  match indices with
  | [] => (Ok [], g)
  | i :: rest =>
    match ufl_sub_space function_space (Z.of_nat i) with
    | Raise e => (Raise e, g)
    | Ok V =>
      let '(c, g) := Coefficient___init__ (ArgSpace V) None None None g in
      match c with
      | Raise e => (Raise e, g)
      | Ok c =>
        let '(cs, g) := Coefficients_comprehension function_space rest g in
        (cons c <$> cs, g)
      end
    end
  end.

(** [Coefficients(function_space)].  The function [split] of
    [ufl.split_functions] is not among the sources and is taken as an
    argument. *)
Definition Coefficients (split : Coefficient -> Result (list Value))
    (function_space : SpaceArg) (g : Globals) : Result (list Value) * Globals :=
  match function_space with
  | ArgSpace (MixedFunctionSpace l es as M) =>
    match num_sub_spaces M with
    | Raise e => (Raise e, g)
    | Ok n =>
      let '(cs, g) := Coefficients_comprehension M (seq 0 n) g in
      (map VCoefficient <$> cs, g)
    end
  | _ =>
    let '(c, g) := Coefficient___init__ function_space None None None g in
    (c ← c; split c, g)
  end.

(** The coefficient that differs from [self] in its part and parent
    only. *)
Definition with_part_parent (self : Coefficient) (part : option Z)
    (parent : option Coefficient) : Coefficient :=
  mkCoefficient (object_id self) (_count self) (_ufl_function_space self)
                (_ufl_shape self) part parent.

End Coefficients.

Arguments Coefficient : clear implicits.
Arguments Value : clear implicits.
Arguments Renumbering : clear implicits.
Arguments SpaceArg : clear implicits.

End coefficient.

(** ** variable2.py: labels and variables *)

Module variable2.

(** The classes that the module defines or imports, and [object]. *)
Inductive Class :=
| object_class
| Counted_class
| Expr_class
| Terminal_class
| Label_class
| NewVariable_class.

Global Instance Class_eq_dec : EqDecision Class.
Proof. solve_decision. Defined.

(** What a module-level name is bound to. *)
Inductive Binding :=
| BClass (c : Class)
| BFunction (name : string)
| BStr (s : string).

(** The global namespace of the module after its body has run: the two
    dunder strings, the four imported names and the two classes.  No
    builtin is called [Variable] either. *)
Definition module_globals : gmap string Binding :=
  list_to_map
    [("__authors__", BStr "Martin Sandve Alnes");
     ("__date__", BStr "2008-05-20 -- 2009-01-09");
     ("Counted", BClass Counted_class);
     ("ufl_assert", BFunction "ufl_assert");
     ("Expr", BClass Expr_class);
     ("Terminal", BClass Terminal_class);
     ("Label", BClass Label_class);
     ("NewVariable", BClass NewVariable_class)].

(** Evaluating a global name. *)
Definition load_global (globals : gmap string Binding) (name : string)
    : Result Binding :=
  match globals !! name with
  | Some b => Ok b
  | None => Raise (NameError name)
  end.

Record Label := mkLabel { _count : Z }.

(** Expressions: a label, a variable, or a node of some other class of
    the catalogue. *)
Inductive Expr :=
| OtherExpr (repr : string)
| LabelExpr (l : Label)
| NewVariableExpr (v : NewVariable)
with NewVariable :=
| mkNewVariable (_expression : Expr) (_label : Label).

Definition _expression (v : NewVariable) : Expr :=
  match v with mkNewVariable e _ => e end.

Definition _label (v : NewVariable) : Label :=
  match v with mkNewVariable _ l => l end.

(** Any Python object that may be passed in. *)
Inductive Object :=
| OExpr (e : Expr)
| ONone
| OInt (z : Z)
| OStr (s : string).

(** The method resolution order of an object's class. *)
Definition mro (o : Object) : list Class :=
  match o with
  | OExpr (OtherExpr _) => [Expr_class; object_class]
  | OExpr (LabelExpr _) =>
    [Label_class; Terminal_class; Expr_class; Counted_class; object_class]
  | OExpr (NewVariableExpr _) => [NewVariable_class; Expr_class; object_class]
  | ONone | OInt _ | OStr _ => [object_class]
  end.

Definition isinstance (o : Object) (c : Class) : bool :=
  bool_decide (c ∈ mro o).

(** [Label.__init__(self, count=None)], with the class counter
    [Label._globalcount] passed along. *)
Definition Label___init__ (count : option Z) (globalcount : Z) : Label * Z :=
  let '(c, n) := counted count globalcount in (mkLabel c, n).

(** [NewVariable.__init__(self, expression, label=None)]. *)
Definition NewVariable___init__ (expression : Object) (label : Object)
    (globalcount : Z) : Result NewVariable * Z :=
  match expression with
  | OExpr e =>
    match label with
    | ONone =>
      let '(l, n) := Label___init__ None globalcount in
      (Ok (mkNewVariable e l), n)
    | OExpr (LabelExpr l) => (Ok (mkNewVariable e l), globalcount)
    | _ => (error "Expecting a Label.", globalcount)
    end
  | _ => (error "Expecting an Expr.", globalcount)
  end.

Definition operands (self : NewVariable) : list Expr :=
  [_expression self; LabelExpr (_label self)].

(** [Label.__repr__(self)] and [Label.__str__(self)], which are the same:
    ["Label(%d)" % self._count]. *)
Definition Label___repr__ (self : Label) : string :=
  "Label(" +:+ pretty (_count self) +:+ ")".

(** [other._label], an attribute that only variables have. *)
Definition getattr__label (other : Object) : Result Label :=
  match other with
  | OExpr (NewVariableExpr w) => Ok (_label w)
  | _ => Raise (AttributeError "_label")
  end.

(** [NewVariable.__eq__(self, other)], with the namespace in which the
    name [Variable] of its body is looked up. *)
Definition NewVariable___eq__ (globals : gmap string Binding)
    (self : NewVariable) (other : Object) : Result bool :=
  b ← load_global globals "Variable";
  match b with
  | BClass cls =>
    if isinstance other cls
    then l ← getattr__label other;
         Ok (bool_decide (_count (_label self) = _count l))
    else Ok false
  | _ => Raise TypeError
  end.

End variable2.

(** ** algorithms/apply_transforms.py: pushing transforms to the terminals *)

Module apply_transforms.

(** The expression nodes the pass tells apart.  A terminal records
    whether its class derives from [FormArgument]; [Operator] is any other
    compound node, with its class name and operands. *)
Inductive Expr :=
| Terminal (form_argument : bool) (repr : string)
| ReferenceValue (f : Expr)
| Transformed (A : Expr) (transform_op : Expr)
| Operator (type_name : string) (operands : list Expr).

Definition ufl_operands (o : Expr) : list Expr :=
  match o with
  | Terminal _ _ => []
  | ReferenceValue f => [f]
  | Transformed A op => [A; op]
  | Operator _ l => l
  end.

Definition _ufl_is_terminal_ (o : Expr) : bool :=
  match o with
  | Terminal _ _ => true
  | _ => false
  end.

(** [isinstance(o, FormArgument)]. *)
Definition is_FormArgument (o : Expr) : bool :=
  match o with
  | Terminal fa _ => fa
  | _ => false
  end.

(** Nodes are immutable and the pass is judged by the structure it
    returns, so a node is modelled by its structure alone and [a is b] by
    comparing structures. *)
Fixpoint same_expr (a b : Expr) {struct a} : bool :=
  match a, b with
  | Terminal fa r, Terminal fa' r' => bool_decide (fa = fa') && bool_decide (r = r')
  | ReferenceValue f, ReferenceValue f' => same_expr f f'
  | Transformed A op, Transformed A' op' => same_expr A A' && same_expr op op'
  | Operator n l, Operator n' l' =>
    bool_decide (n = n')
    && (fix go (l k : list Expr) {struct l} : bool :=
          match l, k with
          | [], [] => true
          | x :: l, y :: k => same_expr x y && go l k
          | _, _ => false
          end) l l'
  | _, _ => false
  end.

(** Modelled from the spec: [Expr._ufl_expr_reconstruct_] is not among
    the sources.  It builds a node of the same kind from new operands. *)
Definition _ufl_expr_reconstruct_ (o : Expr) (ops : list Expr) : Result Expr :=
  match o, ops with
  | Terminal _ _, [] => Ok o
  | ReferenceValue _, [f] => Ok (ReferenceValue f)
  | Transformed _ _, [A; op] => Ok (Transformed A op)
  | Operator n _, _ => Ok (Operator n ops)
  | _, _ => Raise TypeError
  end.

(** Modelled from the spec: [MultiFunction] of [ufl.corealg.multifunction]
    is not among the sources.  A ruleset gives a handler per node kind or
    a default: [terminal] for terminals, [expr] for everything.  A handler
    written [rule(self, o)] receives the node alone and its operands are
    not visited; a handler written [rule(self, o, *ops)] receives the
    node and the results for its operands. *)
Inductive Handler :=
| OnNode (rule : Expr -> Result Expr)
| OnOperands (rule : Expr -> list Expr -> Result Expr).

Record MultiFunction := mkMultiFunction {
  expr : option Handler;
  terminal : option Handler;
  reference_value : option Handler;
  transformed : option Handler
}.

Definition or_else (h d : option Handler) : option Handler :=
  match h with
  | Some _ => h
  | None => d
  end.

Definition dispatch (function : MultiFunction) (o : Expr) : option Handler :=
  match o with
  | Terminal _ _ => or_else (terminal function) (expr function)
  | ReferenceValue _ => or_else (reference_value function) (expr function)
  | Transformed _ _ => or_else (transformed function) (expr function)
  | Operator _ _ => expr function
  end.

(** Modelled from the spec: the default [MultiFunction.reuse_if_untouched]
    returns the node itself when every operand came back unchanged and
    rebuilds it otherwise. *)
Definition reuse_if_untouched (o : Expr) (ops : list Expr) : Result Expr :=
  if forallb (fun '(a, b) => same_expr a b) (zip (ufl_operands o) ops)
  then Ok o
  else _ufl_expr_reconstruct_ o ops.

(** Modelled from the spec: [map_expr_dag] of [ufl.corealg.map_dag] is not
    among the sources.  It applies the ruleset in one post-order pass:
    the operands of a node are resolved first, then the node's own rule
    is applied to the node and those results.  The memo table only saves
    repeated work on shared nodes and does not change the structure
    returned, so it is left out. *)
Fixpoint map_expr_dag (function : MultiFunction) (expression : Expr)
    {struct expression} : Result Expr :=
  match dispatch function expression with
  | None => error "No handler defined for this node kind."
  | Some (OnNode rule) => rule expression
  | Some (OnOperands rule) =>
    ops ← match expression with
          | Terminal _ _ => Ok []
          | ReferenceValue f => r ← map_expr_dag function f; Ok [r]
          | Transformed A op =>
            a ← map_expr_dag function A;
            b ← map_expr_dag function op;
            Ok [a; b]
          | Operator _ l =>
            (fix go (l : list Expr) : Result (list Expr) :=
               match l with
               | [] => Ok []
               | x :: l => r ← map_expr_dag function x; rs ← go l; Ok (r :: rs)
               end) l
          end;
    rule expression ops
  end.

(** Modelled from the spec: [map_integrand_dags] of
    [ufl.algorithms.map_integrands] is not among the sources.  On an
    expression it is [map_expr_dag]; walking the integrals of a form
    belongs to the caller. *)
Definition map_integrand_dags (function : MultiFunction) (expression : Expr)
    : Result Expr :=
  map_expr_dag function expression.

(** [TransformedRuleset.terminal] and [TransformedRuleDispatcher.terminal]. *)
Definition terminal_rule (o : Expr) : Result Expr := Ok o.

(** [TransformedRuleset.reference_value(self, o)], for the ruleset built
    with [transform_op]. *)
Definition reference_value_rule (transform_op : Expr) (o : Expr) : Result Expr :=
  match ufl_operands o with
  | [f] =>
    py_assert (_ufl_is_terminal_ f) ;;
    py_assert (is_FormArgument f) ;;
    Ok (Transformed o transform_op)
  | _ => Raise ValueError
  end.

(** [TransformedRuleset(transform_op)]. *)
Definition TransformedRuleset (transform_op : Expr) : MultiFunction :=
  {| expr := Some (OnOperands reuse_if_untouched);
     terminal := Some (OnNode terminal_rule);
     reference_value := Some (OnNode (reference_value_rule transform_op));
     transformed := None |}.

(** [TransformedRuleDispatcher.transformed(self, o, A, transform_op)]. *)
Definition transformed_rule (o : Expr) (ops : list Expr) : Result Expr :=
  match ops with
  | [A; transform_op] =>
    let rules := TransformedRuleset transform_op in
    map_expr_dag rules A
  | _ => Raise TypeError
  end.

(** [TransformedRuleDispatcher()]. *)
Definition TransformedRuleDispatcher : MultiFunction :=
  {| expr := Some (OnOperands reuse_if_untouched);
     terminal := Some (OnNode terminal_rule);
     reference_value := None;
     transformed := Some (OnOperands transformed_rule) |}.

(** [apply_transforms(expression)]. *)
Definition apply_transforms (expression : Expr) : Result Expr :=
  let rules := TransformedRuleDispatcher in
  map_integrand_dags rules expression.

(** Every reference value in the DAG sits directly on a terminal form
    argument. *)
Fixpoint on_form_arguments (e : Expr) : bool :=
  match e with
  | Terminal _ _ => true
  | ReferenceValue f => _ufl_is_terminal_ f && is_FormArgument f
  | Transformed A op => on_form_arguments A && on_form_arguments op
  | Operator _ l => forallb on_form_arguments l
  end.

(** The DAG with [Transformed(_, op)] put around each reference value and
    nothing else changed. *)
Fixpoint wrap_reference_values (op : Expr) (e : Expr) : Expr :=
  match e with
  | Terminal _ _ => e
  | ReferenceValue _ => Transformed e op
  | Transformed A op' =>
    Transformed (wrap_reference_values op A) (wrap_reference_values op op')
  | Operator n l => Operator n (map (wrap_reference_values op) l)
  end.

(** A DAG with no [Transformed] node. *)
Fixpoint Transformed_free (e : Expr) : bool :=
  match e with
  | Terminal _ _ => true
  | ReferenceValue f => Transformed_free f
  | Transformed _ _ => false
  | Operator _ l => forallb Transformed_free l
  end.

End apply_transforms.

(** ** A small catalogue

    Concrete collaborators on which the definitions can be run: cells
    named by strings, meshes, and elements given by family, cell and
    degree. *)

Module catalogue.

Import functionspace.

Global Instance CellValue_eq_dec {Cell} `{EqDecision Cell} :
  EqDecision (CellValue Cell).
Proof. solve_decision. Defined.

(** A mesh with its identity; an object without [ufl_cell] has no cell. *)
Record Mesh := mkMesh {
  ufl_id : Z;
  mesh_cell : option string
}.

Record FiniteElement := mkFiniteElement {
  family : string;
  cell : CellValue string;
  degree : Z;
  value_shape : list Z
}.

Global Instance Mesh_eq_dec : EqDecision Mesh.
Proof. solve_decision. Defined.

Global Instance FiniteElement_eq_dec : EqDecision FiniteElement.
Proof. solve_decision. Defined.

Definition cell_data (c : CellValue string) : Data :=
  match c with
  | NoCell => DNone
  | OneCell c => DStr c
  | MixedCell cs => DTuple (map DStr cs)
  end.

Definition FiniteElement_data (e : FiniteElement) : Data :=
  DTuple [DStr (family e); cell_data (cell e); DInt (degree e)].

Global Instance catalogue_collaborators : Collaborators string Mesh FiniteElement := {
  domain_ufl_cell := mesh_cell;
  domain_hash_data d := DTuple [DStr "Mesh"; DInt (ufl_id d)];
  domain_signature_data d renumbering :=
    match renumbering d with
    | Some n => Ok (DTuple [DStr "Mesh"; DInt n])
    | None => Raise KeyError
    end;
  join_domains ds := Ok (remove_dups ds);
  default_domain c :=
    match c with
    | Some c => Ok (mkMesh 0 (Some c))
    | None => Raise AssertionError
    end;
  element_cell := cell;
  element_value_shape := value_shape;
  element_hash_data := FiniteElement_data;
  element_signature_data := FiniteElement_data
}.

Definition triangle : string := "triangle".
Definition tetrahedron : string := "tetrahedron".

Definition P1 : FiniteElement := mkFiniteElement "Lagrange" (OneCell triangle) 1 [].
Definition P2 : FiniteElement := mkFiniteElement "Lagrange" (OneCell triangle) 2 [].
Definition P1_tet : FiniteElement :=
  mkFiniteElement "Lagrange" (OneCell tetrahedron) 1 [].
Definition P1_mixed : FiniteElement :=
  mkFiniteElement "Mixed" (MixedCell [triangle; tetrahedron]) 1 [].

Definition mesh_2d : Mesh := mkMesh 1 (Some triangle).
Definition mesh_3d : Mesh := mkMesh 2 (Some tetrahedron).

End catalogue.

(** * Properties *)

(** ** Fallible computations *)

Lemma bind_Ok {A B} (a : A) (k : A -> Result B) : Ok a ≫= k = k a.
Proof. reflexivity. Qed.

Lemma bind_Raise {A B} e (k : A -> Result B) : Raise e ≫= k = Raise e.
Proof. reflexivity. Qed.

Lemma bind_returns {A B} (m : Result A) (k : A -> Result B) b :
  m ≫= k = Ok b <-> exists a, m = Ok a /\ k a = Ok b.
Proof.
  destruct m as [a|e]; simpl; split.
  - intros H. exists a. auto.
  - intros (a' & [= <-] & H). exact H.
  - discriminate.
  - intros (a' & [=] & _).
Qed.

Lemma ufl_assert_true msg : ufl_assert true msg = Ok tt.
Proof. reflexivity. Qed.

Lemma ufl_assert_false msg : ufl_assert false msg = Raise (UFLException msg).
Proof. reflexivity. Qed.

Lemma raises_not_returns {A} (m : Result A) : raises m <-> ~ returns m.
Proof.
  destruct m as [a|e]; split.
  - intros [e [=]].
  - intros H. destruct H. exists a. reflexivity.
  - intros _ [a [=]].
  - intros _. exists e. reflexivity.
Qed.

Lemma raises_Raise {A} e : raises (@Raise A e).
Proof. exists e. reflexivity. Qed.

Lemma returns_Ok {A} (a : A) : returns (Ok a).
Proof. exists a. reflexivity. Qed.

#[global] Hint Resolve raises_Raise returns_Ok : core.

(** ** Differential operators *)

Module differentiation_facts.

Import differentiation.

Lemma symmetric_difference_empty (a b : gset Index) :
  size (symmetric_difference a b) = 0 <-> a = b.
Proof.
  unfold symmetric_difference. rewrite size_empty_iff. split.
  - intros H. apply set_eq. intros i. split; intros Hi.
    + destruct (decide (i ∈ b)) as [|Hn]; [assumption|].
      exfalso. apply (not_elem_of_empty (C:=gset Index) i).
      rewrite <- H. apply elem_of_union_l, elem_of_difference. by split.
    + destruct (decide (i ∈ a)) as [|Hn]; [assumption|].
      exfalso. apply (not_elem_of_empty (C:=gset Index) i).
      rewrite <- H. apply elem_of_union_r, elem_of_difference. by split.
  - intros -> i.
    rewrite elem_of_union, elem_of_difference. split; [tauto|].
    intros Hi. by apply not_elem_of_empty in Hi.
Qed.

(** What the constructor of [Diff] accepts: a node [f] and a variable [x]
    whose free indices form the same set. *)
Lemma Diff_init_returns (f x : UFLObject) :
  is_Variable x = true ->
  (returns (Diff___init__ (VObject f) (VObject x))
   <-> set_of (free_indices f) = set_of (free_indices x)).
Proof.
  intros Hx. unfold Diff___init__. rewrite Hx. simpl.
  rewrite <- symmetric_difference_empty.
  case_bool_decide as H; simpl.
  - split; [intros _; exact H | intros _; eauto].
  - split; [intros [o [=]] | intros H'; contradiction].
Qed.

(** C1, as the code has it: [Diff.__init__] tests the symmetric
    difference [set(fi) ^ set(xi)] where the intersection is meant.
    With [f] and [x] both carrying the free index [0] the two sets are
    equal, the test passes and the node is built with that index twice among
    its free indices; with [f] carrying index [0] and [x] none, the sets
    are disjoint and construction is rejected. *)
Theorem Diff_shared_index_is_accepted :
  let i : Index := 0 in
  let f := Atom [] [i] in
  let x := Variable_ [] [i] in
  let y := Variable_ [] [] in
  share_index (free_indices f) (free_indices x)
  /\ Diff___init__ (VObject f) (VObject x) = Ok (Diff f x [i; i] [])
  /\ ~ share_index (free_indices f) (free_indices y)
  /\ Diff___init__ (VObject f) (VObject y)
     = Raise (UFLException "Repeated indices not allowed in Diff.").
Proof.
  simpl. split; [|split; [|split]].
  - exists 0. split; apply list_elem_of_singleton; reflexivity.
  - vm_compute. reflexivity.
  - intros (i & _ & Hi). by apply not_elem_of_nil in Hi.
  - vm_compute. reflexivity.
Qed.

Lemma Div_init_Ok (f : UFLObject) :
  1 <= rank f -> free_indices f = [] -> Div___init__ f = Ok (Div f).
Proof.
  intros Hr Hf. unfold Div___init__.
  rewrite (bool_decide_eq_true_2 (1 <= rank f)) by exact Hr.
  rewrite Hf. reflexivity.
Qed.

Lemma Div_init_scalar (f : UFLObject) :
  rank f = 0 ->
  Div___init__ f = Raise (UFLException "Can't take the divergence of a scalar.").
Proof.
  intros Hr. unfold Div___init__.
  rewrite (bool_decide_eq_false_2 (1 <= rank f)) by lia. reflexivity.
Qed.

Lemma Div_init_free_indices (f : UFLObject) :
  free_indices f <> [] -> raises (Div___init__ f).
Proof.
  intros Hf. unfold Div___init__.
  destruct (bool_decide (1 <= rank f)); simpl; [|eauto].
  destruct (free_indices f); [contradiction | simpl; eauto].
Qed.

(** C7: for an operand of rank at least one without free indices,
    [Div(f)] is built and its shape is the operand's shape without the
    leading axis; a scalar operand or one with free indices is rejected.
    A shape [(3,)] gives [()], a shape [(3, 3)] gives [(3,)]. *)
Theorem Div_shape_drops_leading_axis (f : UFLObject) :
  (1 <= rank f -> free_indices f = [] ->
   Div___init__ f = Ok (Div f) /\ shape (Div f) = drop 1 (shape f))
  /\ (rank f = 0 \/ free_indices f <> [] -> raises (Div___init__ f))
  /\ (shape f = [IntDim 3] -> free_indices f = [] ->
      Div___init__ f = Ok (Div f) /\ shape (Div f) = [])
  /\ (shape f = [IntDim 3; IntDim 3] -> free_indices f = [] ->
      Div___init__ f = Ok (Div f) /\ shape (Div f) = [IntDim 3]).
Proof.
  repeat split.
  - by apply Div_init_Ok.
  - intros [Hr | Hf].
    + rewrite Div_init_scalar by exact Hr. eauto.
    + by apply Div_init_free_indices.
  - apply Div_init_Ok; [unfold rank; rewrite H; simpl; lia | assumption].
  - simpl. by rewrite H.
  - apply Div_init_Ok; [unfold rank; rewrite H; simpl; lia | assumption].
  - simpl. by rewrite H.
Qed.

Example Grad_shape_scalar :
  let f := Atom [] [] in
  Grad___init__ f = Ok (Grad f) /\ shape (Grad f) = [DefaultDim].
Proof. split; reflexivity. Qed.

Example Grad_shape_vector :
  let f := Atom [IntDim 3] [] in
  Grad___init__ f = Ok (Grad f) /\ shape (Grad f) = [DefaultDim; IntDim 3].
Proof. split; reflexivity. Qed.

Example Div_of_scalar :
  Div___init__ (Atom [] [])
  = Raise (UFLException "Can't take the divergence of a scalar.").
Proof. reflexivity. Qed.

Lemma Div_shape_drops_leading_axis_witness :
  let f := Atom [IntDim 3; IntDim 3] [] in
  Div___init__ f = Ok (Div f) /\ shape (Div f) = [IntDim 3].
Proof.
  intros f.
  apply (proj1 (Div_shape_drops_leading_axis f)).
  - unfold rank. simpl. lia.
  - reflexivity.
Defined.

(** *** Beyond the constructors of [Diff] and [Div] *)

Lemma set_of_elem (l : list Index) (i : Index) : i ∈ set_of l <-> i ∈ l.
Proof. unfold set_of. apply elem_of_list_to_set. Qed.

(** X1: [Diff(f, x)] is built exactly for a node [f] and a variable [x] whose
    free indices form the same set, the type of [f] being checked first;
    the node then has the operands [(f, x)], the shape of [f] followed by
    that of [x], hence the sum of the ranks, and as free indices those of
    [f] followed by those of [x], so that each of them occurs in both. *)
Theorem Diff_init_characterised (f x : Value) :
  (returns (Diff___init__ f x)
   <-> exists fo xo, f = VObject fo /\ x = VObject xo /\ is_Variable xo = true
                     /\ set_of (free_indices fo) = set_of (free_indices xo))
  /\ (forall d, Diff___init__ f x = Ok d ->
        exists fo xo, f = VObject fo /\ x = VObject xo
          /\ operands d = [fo; xo]
          /\ shape d = (shape fo ++ shape xo)%list
          /\ rank d = rank fo + rank xo
          /\ free_indices d = (free_indices fo ++ free_indices xo)%list
          /\ (forall i, i ∈ free_indices d ->
                 i ∈ free_indices fo /\ i ∈ free_indices xo))
  /\ (forall r, f = VOther r ->
        Diff___init__ f x = Raise (UFLException "Expecting an UFLObject in Diff.")).
Proof.
  split; [|split].
  - split.
    + intros Hret. destruct f as [fo|r]; [|destruct Hret as [? [=]]].
      destruct x as [xo|r]; [|destruct Hret as [? [=]]].
      destruct (is_Variable xo) eqn:Hx.
      * exists fo, xo. split; [reflexivity|]. split; [reflexivity|].
        split; [exact Hx|]. by apply (Diff_init_returns fo xo Hx).
      * unfold Diff___init__ in Hret. rewrite Hx in Hret.
        destruct Hret as [? [=]].
    + intros (fo & xo & -> & -> & Hx & Hset). by apply Diff_init_returns.
  - intros d Hd. destruct f as [fo|r]; [|discriminate].
    destruct x as [xo|r]; [|discriminate].
    destruct (is_Variable xo) eqn:Hx;
      [|unfold Diff___init__ in Hd; rewrite Hx in Hd; discriminate].
    assert (set_of (free_indices fo) = set_of (free_indices xo)) as Hset
      by (apply (Diff_init_returns fo xo Hx); exists d; exact Hd).
    unfold Diff___init__ in Hd. rewrite Hx in Hd. simpl in Hd.
    rewrite bool_decide_eq_true_2 in Hd by (by apply symmetric_difference_empty).
    injection Hd as <-. exists fo, xo. simpl.
    split; [reflexivity|]. split; [reflexivity|].
    split; [reflexivity|]. split; [reflexivity|].
    split; [unfold rank; simpl; apply length_app|].
    split; [reflexivity|].
    intros i Hi. apply elem_of_app in Hi as [Hi|Hi].
    + split; [assumption|]. apply set_of_elem. rewrite <- Hset. by apply set_of_elem.
    + split; [|assumption]. apply set_of_elem. rewrite Hset. by apply set_of_elem.
  - intros r ->. reflexivity.
Qed.

Lemma Diff_init_characterised_witness :
  let f := Atom [IntDim 2] [4; 7] in
  let x := Variable_ [IntDim 3] [7; 4; 7] in
  exists fo xo, VObject f = VObject fo /\ VObject x = VObject xo
    /\ operands (Diff f x [4; 7; 7; 4; 7] [IntDim 2; IntDim 3]) = [fo; xo]
    /\ shape (Diff f x [4; 7; 7; 4; 7] [IntDim 2; IntDim 3])
       = (shape fo ++ shape xo)%list
    /\ rank (Diff f x [4; 7; 7; 4; 7] [IntDim 2; IntDim 3]) = rank fo + rank xo
    /\ free_indices (Diff f x [4; 7; 7; 4; 7] [IntDim 2; IntDim 3])
       = (free_indices fo ++ free_indices xo)%list
    /\ (forall i, i ∈ free_indices (Diff f x [4; 7; 7; 4; 7] [IntDim 2; IntDim 3]) ->
           i ∈ free_indices fo /\ i ∈ free_indices xo).
Proof.
  intros f x.
  apply (proj1 (proj2 (Diff_init_characterised (VObject f) (VObject x)))).
  vm_compute. reflexivity.
Defined.

(** X2: [Grad(f)] is built exactly when [f] has no free index; it puts the
    symbolic default dimension in front of the shape of [f], so the rank
    goes up by one, and it has no free index itself. *)
Theorem Grad_init_characterised (f : UFLObject) :
  (returns (Grad___init__ f) <-> free_indices f = [])
  /\ (forall g, Grad___init__ f = Ok g ->
        g = Grad f /\ shape g = DefaultDim :: shape f
        /\ rank g = S (rank f) /\ free_indices g = [] /\ operands g = [f])
  /\ (free_indices f <> [] ->
      Grad___init__ f = Raise (UFLException (free_indices_msg "gradient"))).
Proof.
  unfold Grad___init__. destruct (free_indices f) as [|i fi] eqn:Hfi; simpl.
  - split; [split; eauto|]. split; [|intros []; reflexivity].
    intros g [= <-]. simpl. rewrite Hfi. repeat split.
  - split; [split; [intros [? [=]] | discriminate]|].
    split; [discriminate | reflexivity].
Qed.

Lemma Grad_init_characterised_witness :
  let f := Atom [IntDim 3] [] in
  Grad f = Grad f /\ shape (Grad f) = DefaultDim :: shape f
  /\ rank (Grad f) = S (rank f) /\ free_indices (Grad f) = []
  /\ operands (Grad f) = [f].
Proof.
  intros f.
  apply (proj1 (proj2 (Grad_init_characterised f))). reflexivity.
Defined.

(** X3: The divergence of a gradient: for every [f] without free indices,
    [Grad(f)] is built, [Div] of it is built, and the result has the shape
    of [f] again.  The other way round, for [f] of rank at least one,
    [Grad(Div(f))] is built and has the rank of [f]. *)
Theorem Div_of_Grad_restores_shape (f : UFLObject) :
  free_indices f = [] ->
  (Grad___init__ f ≫= Div___init__) = Ok (Div (Grad f))
  /\ shape (Div (Grad f)) = shape f
  /\ free_indices (Div (Grad f)) = []
  /\ (1 <= rank f ->
      (Div___init__ f ≫= Grad___init__) = Ok (Grad (Div f))
      /\ rank (Grad (Div f)) = rank f).
Proof.
  intros Hfi.
  assert (Grad___init__ f = Ok (Grad f)) as HG
    by (unfold Grad___init__; rewrite Hfi; reflexivity).
  split; [|split; [|split]].
  - rewrite HG. simpl. apply Div_init_Ok; [unfold rank; simpl; lia | exact Hfi].
  - simpl. by rewrite drop_0.
  - exact Hfi.
  - intros Hr. rewrite (Div_init_Ok f Hr Hfi). simpl. split.
    + unfold Grad___init__. simpl. rewrite Hfi. reflexivity.
    + unfold rank in *. simpl. rewrite length_drop. lia.
Qed.

Lemma Div_of_Grad_restores_shape_witness :
  let f := Atom [IntDim 3; IntDim 2] [] in
  (Grad___init__ f ≫= Div___init__) = Ok (Div (Grad f))
  /\ shape (Div (Grad f)) = [IntDim 3; IntDim 2].
Proof.
  intros f.
  destruct (Div_of_Grad_restores_shape f eq_refl) as (H1 & H2 & _).
  split; [exact H1 | exact H2].
Defined.

Lemma Curl_init_inv (f c : UFLObject) :
  Curl___init__ f = Ok c -> c = Curl f /\ rank f = 1 /\ free_indices f = [].
Proof.
  unfold Curl___init__. intros H.
  destruct (decide (rank f = 1)) as [Hr|Hr].
  - rewrite (bool_decide_eq_true_2 _ Hr) in H.
    destruct (free_indices f) as [|i l]; [|discriminate].
    injection H as <-. auto.
  - rewrite (bool_decide_eq_false_2 _ Hr) in H. discriminate.
Qed.

Lemma Rot_init_inv (f r : UFLObject) :
  Rot___init__ f = Ok r -> r = Rot f /\ rank f = 1 /\ free_indices f = [].
Proof.
  unfold Rot___init__. intros H.
  destruct (decide (rank f = 1)) as [Hr|Hr].
  - rewrite (bool_decide_eq_true_2 _ Hr) in H.
    destruct (free_indices f) as [|i l]; [|discriminate].
    injection H as <-. auto.
  - rewrite (bool_decide_eq_false_2 _ Hr) in H. discriminate.
Qed.

(** X4: [Curl(f)] and [Rot(f)] are built exactly for a vector without free
    indices; the first is a vector of the default dimension, the second a
    scalar.  An argument of another rank is rejected with the message
    ["Need a vector."], whatever its free indices. *)
Theorem Curl_Rot_init_characterised (f : UFLObject) :
  (returns (Curl___init__ f) <-> rank f = 1 /\ free_indices f = [])
  /\ (returns (Rot___init__ f) <-> rank f = 1 /\ free_indices f = [])
  /\ (forall c, Curl___init__ f = Ok c ->
        c = Curl f /\ shape c = [DefaultDim] /\ free_indices c = [])
  /\ (forall r, Rot___init__ f = Ok r ->
        r = Rot f /\ shape r = [] /\ free_indices r = [])
  /\ (rank f <> 1 ->
      Curl___init__ f = Raise (UFLException "Need a vector.")
      /\ Rot___init__ f = Raise (UFLException "Need a vector.")).
Proof.
  unfold Curl___init__, Rot___init__.
  destruct (decide (rank f = 1)) as [Hr|Hr].
  - rewrite !(bool_decide_eq_true_2 (rank f = 1)) by exact Hr. simpl.
    destruct (free_indices f) as [|i fi] eqn:Hfi; simpl.
    + split; [split; eauto|]. split; [split; eauto|].
      split; [intros c [= <-]; simpl; by rewrite Hfi|].
      split; [intros r [= <-]; simpl; by rewrite Hfi|]. intros []. exact Hr.
    + split; [split; [intros [? [=]] | intros [_ [=]]]|].
      split; [split; [intros [? [=]] | intros [_ [=]]]|].
      split; [discriminate|]. split; [discriminate|]. intros []. exact Hr.
  - rewrite !(bool_decide_eq_false_2 (rank f = 1)) by exact Hr. simpl.
    split; [split; [intros [? [=]] | intros [? _]; contradiction]|].
    split; [split; [intros [? [=]] | intros [? _]; contradiction]|].
    split; [discriminate|]. split; [discriminate|]. intros _. split; reflexivity.
Qed.

Lemma Curl_Rot_init_characterised_witness :
  let f := Atom [IntDim 3] [] in
  Curl f = Curl f /\ shape (Curl f) = [DefaultDim] /\ free_indices (Curl f) = [].
Proof.
  intros f.
  apply (proj1 (proj2 (proj2 (Curl_Rot_init_characterised f)))). reflexivity.
Defined.

(** X5: How the operators nest.  A curl can be fed to every operator of the
    file; a rot is a scalar, of which only the gradient exists; the
    divergence of a vector is a scalar as well. *)
Theorem operators_nest_by_rank (f : UFLObject) :
  (forall c, Curl___init__ f = Ok c ->
     returns (Grad___init__ c) /\ returns (Div___init__ c)
     /\ returns (Curl___init__ c) /\ returns (Rot___init__ c))
  /\ (forall r, Rot___init__ f = Ok r ->
       returns (Grad___init__ r) /\ raises (Div___init__ r)
       /\ raises (Curl___init__ r) /\ raises (Rot___init__ r))
  /\ (forall d, Div___init__ f = Ok d -> rank f = 1 ->
       returns (Grad___init__ d) /\ raises (Div___init__ d)
       /\ raises (Curl___init__ d) /\ raises (Rot___init__ d)).
Proof.
  split; [|split].
  - intros c Hc. destruct (Curl_init_inv f c Hc) as (-> & _ & Hfi).
    unfold Grad___init__, Div___init__, Curl___init__, Rot___init__, rank.
    simpl. rewrite Hfi. simpl. repeat split; eauto.
  - intros r Hr. destruct (Rot_init_inv f r Hr) as (-> & _ & Hfi).
    unfold Grad___init__, Div___init__, Curl___init__, Rot___init__, rank.
    simpl. rewrite Hfi. simpl. repeat split; eauto.
  - intros d Hd Hr.
    assert (free_indices f = []) as Hfi.
    { destruct (free_indices f) eqn:E; [reflexivity|].
      assert (raises (Div___init__ f)) as [e He]
        by (apply Div_init_free_indices; rewrite E; discriminate).
      congruence. }
    rewrite (Div_init_Ok f) in Hd by (rewrite ?Hr; auto). injection Hd as <-.
    assert (shape (Div f) = []) as Hs.
    { simpl. unfold rank in Hr. destruct (shape f) as [|? [|? ?]]; try discriminate.
      reflexivity. }
    unfold Grad___init__, Div___init__, Curl___init__, Rot___init__, rank.
    rewrite Hs. simpl. rewrite Hfi. simpl. repeat split; eauto.
Qed.

Lemma operators_nest_by_rank_witness :
  let f := Atom [IntDim 3] [] in
  returns (Grad___init__ (Curl f)) /\ returns (Div___init__ (Curl f))
  /\ returns (Curl___init__ (Curl f)) /\ returns (Rot___init__ (Curl f)).
Proof.
  intros f.
  apply (proj1 (operators_nest_by_rank f)). reflexivity.
Defined.

Lemma repeated_index_dimensions_fold {D} (default_dim : D) (l : list Index)
    (d : gmap Index D) (i : Index) :
  foldl (fun d i => <[i := default_dim]> d) d l !! i
  = if bool_decide (i ∈ l) then Some default_dim else d !! i.
Proof.
  revert d. induction l as [|j l IH]; intros d.
  - case_bool_decide as H; [by apply not_elem_of_nil in H | reflexivity].
  - simpl. rewrite IH.
    case_bool_decide as Hl; case_bool_decide as Hjl; try reflexivity.
    + destruct Hjl. by apply elem_of_cons; right.
    + apply elem_of_cons in Hjl as [->|Hjl]; [|contradiction].
      apply lookup_insert_eq.
    + apply lookup_insert_ne. intros ->. apply Hjl, elem_of_cons. by left.
Qed.

(** X6: The dictionary of [repeated_index_dimensions] has exactly the
    repeated indices as keys, each with the default dimension as value, a
    repeated occurrence in the tuple giving one key. *)
Theorem repeated_index_dimensions_lookup {D} (self : SpatialDerivative)
    (default_dim : D) (i : Index) :
  (repeated_index_dimensions self default_dim !! i = Some default_dim
   <-> i ∈ _repeated_indices self)
  /\ (repeated_index_dimensions self default_dim !! i = None
      <-> i ∉ _repeated_indices self)
  /\ dom (repeated_index_dimensions self default_dim)
     = set_of (_repeated_indices self)
  /\ size (repeated_index_dimensions self default_dim)
     <= length (_repeated_indices self).
Proof.
  unfold repeated_index_dimensions.
  assert (forall j,
    foldl (fun d i => <[i := default_dim]> d) (∅ : gmap Index D)
          (_repeated_indices self) !! j
    = if bool_decide (j ∈ _repeated_indices self) then Some default_dim else None)
    as Hlook.
  { intros j. rewrite repeated_index_dimensions_fold, lookup_empty. reflexivity. }
  assert (dom (foldl (fun d i => <[i := default_dim]> d) (∅ : gmap Index D)
                     (_repeated_indices self))
          = set_of (_repeated_indices self)) as Hdom.
  { apply set_eq. intros j. rewrite elem_of_dom, Hlook, set_of_elem.
    case_bool_decide; split; intros H'; try assumption; eauto.
    - by destruct H'.
    - contradiction. }
  split; [|split; [|split]].
  - rewrite Hlook. case_bool_decide; split; intros; try done.
  - rewrite Hlook. case_bool_decide; split; intros; try done.
  - exact Hdom.
  - rewrite <- size_dom, Hdom. unfold set_of. clear Hlook Hdom.
    induction (_repeated_indices self) as [|j l IH].
    + change (size (∅ : gset Index) <= 0). by rewrite size_empty.
    + change (size ({[j]} ∪ list_to_set l : gset Index) <= S (length l)).
      rewrite size_union_alt, size_singleton.
      apply le_n_S. etrans; [|exact IH].
      apply subseteq_size, subseteq_difference_l. reflexivity.
Qed.

End differentiation_facts.

(** ** Plain tuple data *)

(** Induction over nested tuples, with the hypothesis for every item of a
    tuple. *)
Lemma Data_nested_ind (P : Data -> Prop) :
  P DNone ->
  (forall s, P (DStr s)) ->
  (forall z, P (DInt z)) ->
  (forall items, Forall P items -> P (DTuple items)) ->
  forall d, P d.
Proof.
  intros HNone HStr HInt HTuple. fix IH 1. intros [|s|z|items].
  - exact HNone.
  - apply HStr.
  - apply HInt.
  - apply HTuple. induction items as [|x l IHl]; constructor.
    + apply IH.
    + exact IHl.
Qed.

Lemma Data_eqb_eq (a b : Data) : Data_eqb a b = true <-> a = b.
Proof.
  revert b. induction a as [|s|z|items IH] using Data_nested_ind;
    intros [|t|y|k]; simpl; try (split; discriminate).
  - split; reflexivity.
  - rewrite bool_decide_eq_true. split; congruence.
  - rewrite bool_decide_eq_true. split; congruence.
  - revert k. induction IH as [|x l Hx _ IHl]; intros [|y k];
      try (split; discriminate).
    + split; reflexivity.
    + rewrite andb_true_iff, Hx. specialize (IHl k). split.
      * intros [-> Hl]. apply IHl in Hl. congruence.
      * intros [= -> ->]. split; [reflexivity|]. apply IHl. reflexivity.
Qed.

Lemma Data_eqb_refl (a : Data) : Data_eqb a a = true.
Proof. by apply Data_eqb_eq. Qed.

(** ** Strings and decimal numerals *)

Lemma string_length_app (s t : string) :
  String.length (s +:+ t) = String.length s + String.length t.
Proof. induction s as [|c s IH]; simpl; [reflexivity | by rewrite IH]. Qed.

Lemma string_app_inj_r (s t u : string) : s +:+ u = t +:+ u -> s = t.
Proof.
  revert t. induction s as [|c s IH]; intros [|c' t] H; simpl in H.
  - reflexivity.
  - apply (f_equal String.length) in H.
    rewrite !string_length_app in H. simpl in H. lia.
  - apply (f_equal String.length) in H.
    rewrite !string_length_app in H. simpl in H. lia.
  - injection H as -> H. f_equal. by apply IH.
Qed.

Lemma pretty_N_go_longer (x : N) (s : string) :
  (0 < x)%N -> String.length s < String.length (pretty_N_go x s).
Proof.
  revert s. induction (N.lt_wf_0 x) as [x _ IH]; intros s Hx.
  rewrite pretty_N_go_step by exact Hx.
  destruct (decide (x `div` 10 = 0)%N) as [Hz|Hz].
  - rewrite Hz, pretty_N_go_0. simpl. lia.
  - etrans; [|apply IH; [by apply N.div_lt | by apply N.neq_0_lt_0]].
    simpl. lia.
Qed.

Lemma pretty_N_length (x : N) : String.length (pretty x) = 1 <-> (x < 10)%N.
Proof.
  unfold pretty, pretty_N. case_decide as Hx; [subst; simpl; split; [lia|done]|].
  rewrite pretty_N_go_step by lia.
  destruct (decide (x < 10)%N) as [Hlt|Hge].
  - rewrite N.div_small, pretty_N_go_0 by exact Hlt. simpl. split; done.
  - split; [|lia]. intros Hlen.
    assert (0 < x `div` 10)%N by (apply N.div_str_pos; lia).
    pose proof (pretty_N_go_longer (x `div` 10)
                  (String (pretty_N_char (x `mod` 10)) "") H) as Hl.
    simpl in Hl. lia.
Qed.

Lemma str_int_length (z : Z) : String.length (pretty z) = 1 <-> (0 <= z <= 9)%Z.
Proof.
  unfold pretty, pretty_Z. destruct z as [|p|p].
  - simpl. split; [lia | done].
  - change (String.length (pretty (Npos p)) = 1 <-> (0 <= Z.pos p <= 9)%Z).
    rewrite pretty_N_length. lia.
  - change (S (String.length (pretty (Npos p))) = 1 <-> (0 <= Z.neg p <= 9)%Z).
    split; [|lia]. intros Hlen.
    assert (String.length (pretty (Npos p)) = 0) as H0 by lia.
    unfold pretty, pretty_N in H0. case_decide; [discriminate|].
    pose proof (pretty_N_go_longer (Npos p) "" ltac:(lia)). simpl in *. lia.
Qed.

(** ** Function spaces *)

Module functionspace_facts.

Import functionspace.

Section Facts.

Context {Cell Domain Element : Type} `{!Collaborators Cell Domain Element}.

Abbreviation AbstractFunctionSpace := (AbstractFunctionSpace Domain Element).

Lemma check_domain_Ok (d : Domain) (c : CellValue Cell) :
  check_domain d c = Ok tt <-> exists dc, domain_ufl_cell d = Some dc /\ c = OneCell dc.
Proof.
  unfold check_domain. destruct (domain_ufl_cell d) as [dc|].
  - destruct c as [|c|cs]; simpl.
    + split; [discriminate | intros (? & _ & [=])].
    + case_bool_decide as Hc; simpl.
      * subst c. split; eauto.
      * split; [discriminate | intros (? & [= <-] & [= ?]); contradiction].
    + split; [discriminate | intros (? & _ & [=])].
  - split; [discriminate | intros (? & [=] & _)].
Qed.

Lemma check_domain_mismatch (d : Domain) (c dc : Cell) :
  domain_ufl_cell d = Some dc -> c <> dc ->
  check_domain d (OneCell c)
  = Raise (UFLException "Non-matching cell of finite element and domain.").
Proof.
  intros Hd Hc. unfold check_domain. rewrite Hd. simpl.
  rewrite bool_decide_eq_false_2 by exact Hc. reflexivity.
Qed.

(** The loop over the zipped tuples passes exactly when every domain has
    the cell paired with it. *)
Lemma check_domains_Ok (ds : list Domain) (cs : list Cell) :
  length ds = length cs ->
  (check_domains (zip ds cs) = Ok tt
   <-> Forall2 (fun d c => domain_ufl_cell d = Some c) ds cs).
Proof.
  revert cs. induction ds as [|d ds IH]; intros [|c cs] Hlen; try discriminate.
  - simpl. split; [constructor | reflexivity].
  - simpl in Hlen. injection Hlen as Hlen. simpl.
    destruct (check_domain d (OneCell c)) as [[]|e] eqn:Hd; simpl.
    + apply check_domain_Ok in Hd as (dc & Hdc & [= ->]).
      rewrite (IH cs Hlen). split.
      * intros H. by constructor.
      * intros H. by inversion H.
    + split; [discriminate|].
      intros H. inversion H as [|? ? ? ? Hdc _]; subst.
      assert (check_domain d (OneCell c) = Ok tt) as Hok
        by (apply check_domain_Ok; eauto).
      congruence.
Qed.

Lemma FunctionSpace_init_returns domain element V :
  FunctionSpace___init__ domain element = Ok V -> V = FunctionSpace domain element.
Proof.
  unfold FunctionSpace___init__. intros H.
  apply bind_returns in H as (? & _ & [= <-]). reflexivity.
Qed.

Lemma FunctionSpace_init_tuple (ds : list Domain) (e : Element) :
  returns (FunctionSpace___init__ (DomainTuple ds) (Some e))
  <-> exists cs, element_cell e = MixedCell cs /\ length ds = length cs
                 /\ Forall2 (fun d c => domain_ufl_cell d = Some c) ds cs.
Proof.
  unfold FunctionSpace___init__. simpl.
  destruct (element_cell e) as [|c|cs] eqn:He; simpl.
  - split; [intros [? [=]] | intros (? & [=] & _)].
  - split; [intros [? [=]] | intros (? & [=] & _)].
  - case_bool_decide as Hlen; simpl.
    + split; [intros [? [=]] | intros (? & [= <-] & ? & _); contradiction].
    + assert (length ds = length cs) as Hlen'
        by (destruct (decide (length ds = length cs)); [assumption | contradiction]).
      destruct (check_domains (zip ds cs)) as [[]|err] eqn:Hc; simpl.
      * apply check_domains_Ok in Hc; [|assumption].
        split; [intros _; eauto | intros _; eauto].
      * split; [intros [? [=]]|].
        intros (cs' & [= <-] & _ & Hall).
        apply check_domains_Ok in Hall; [congruence | assumption].
Qed.

(** C8: a single domain and an element that both name a cell give a
    space when the cells agree and the cell-mismatch error when they
    differ (a triangle against a tetrahedron, say); a tuple of domains
    gives a space exactly when the element's cell is a tuple of the same
    length whose entries agree pairwise with the cells of the domains,
    and fails with the error of the first check that is violated. *)
Theorem FunctionSpace_init_checks_cells (e : Element) :
  (forall d dc c,
     domain_ufl_cell d = Some dc -> element_cell e = OneCell c ->
     (c = dc -> FunctionSpace___init__ (DomainOne d) (Some e)
                = Ok (FunctionSpace (DomainOne d) (Some e)))
     /\ (c <> dc -> FunctionSpace___init__ (DomainOne d) (Some e)
                    = Raise (UFLException
                        "Non-matching cell of finite element and domain.")))
  /\ (forall ds,
       (returns (FunctionSpace___init__ (DomainTuple ds) (Some e))
        <-> exists cs, element_cell e = MixedCell cs /\ length ds = length cs
                       /\ Forall2 (fun d c => domain_ufl_cell d = Some c) ds cs)
       /\ (forall V, FunctionSpace___init__ (DomainTuple ds) (Some e) = Ok V ->
                     V = FunctionSpace (DomainTuple ds) (Some e))
       /\ ((forall cs, element_cell e <> MixedCell cs) ->
           FunctionSpace___init__ (DomainTuple ds) (Some e)
           = Raise (UFLException
               "Must have a mixed cell (tuple) if we have a mixed domain (tuple)."))
       /\ (forall cs, element_cell e = MixedCell cs -> length ds <> length cs ->
           FunctionSpace___init__ (DomainTuple ds) (Some e)
           = Raise (UFLException
               "Mixed cell (tuple) and mixed domain (tuple) must have the same length."))
       /\ (forall cs d c dc, element_cell e = MixedCell cs ->
           length ds = length cs -> (d, c) ∈ zip ds cs ->
           domain_ufl_cell d = Some dc -> c <> dc ->
           raises (FunctionSpace___init__ (DomainTuple ds) (Some e)))).
Proof.
  split.
  - intros d dc c Hd He. unfold FunctionSpace___init__. simpl. rewrite He. simpl.
    split.
    + intros ->. unfold check_domain. rewrite Hd. simpl.
      rewrite bool_decide_eq_true_2 by reflexivity. reflexivity.
    + intros Hc. rewrite (check_domain_mismatch d c dc Hd Hc). reflexivity.
  - intros ds. split; [apply FunctionSpace_init_tuple|].
    split; [intros V; apply FunctionSpace_init_returns|].
    split; [|split].
    + intros Hno. unfold FunctionSpace___init__. simpl.
      destruct (element_cell e) as [|c|cs]; try reflexivity.
      destruct (Hno cs). reflexivity.
    + intros cs He Hlen. unfold FunctionSpace___init__. simpl. rewrite He. simpl.
      rewrite bool_decide_eq_true_2 by exact Hlen. reflexivity.
    + intros cs d c dc He Hlen Hin Hd Hc.
      apply raises_not_returns. intros Hret.
      apply FunctionSpace_init_tuple in Hret as (cs' & He' & _ & Hall).
      rewrite He in He'. injection He' as <-.
      rewrite Forall2_lookup in Hall.
      apply list_elem_of_lookup in Hin as (i & Hi).
      apply lookup_zip_with_Some in Hi as (d' & c' & [= <- <-] & Hdi & Hci).
      specialize (Hall i). rewrite Hdi, Hci in Hall.
      inversion Hall as [? ? Heq|]; subst. congruence.
Qed.

Lemma collect_elements_Ok (args : list AbstractFunctionSpace) es :
  collect_elements args = Ok es ->
  Forall2 (fun V e => exists d, V = FunctionSpace d e) args es.
Proof.
  revert es. induction args as [|V args IH]; intros es H; simpl in H.
  - injection H as <-. constructor.
  - destruct V as [d e|l|l l']; try discriminate.
    apply bind_returns in H as (es' & Hes & [= <-]).
    constructor; eauto.
Qed.

Lemma MixedFunctionSpace_init_Ok (args : list AbstractFunctionSpace) m :
  MixedFunctionSpace___init__ args = Ok m ->
  exists es, m = MixedFunctionSpace args es
             /\ Forall2 (fun V e => exists d, V = FunctionSpace d e) args es.
Proof.
  unfold MixedFunctionSpace___init__. intros H.
  apply bind_returns in H as (es & Hes & [= <-]).
  exists es. split; [reflexivity | by apply collect_elements_Ok].
Qed.

(** C2, as the code has it: the elements of the sub-spaces are kept in a
    list, duplicates included, and [ufl_element] looks at the length of
    that list.  It returns the element when the mixed space has exactly
    one sub-space and fails with the ambiguity error otherwise; built from
    two function spaces, it fails, while [ufl_elements] returns both
    elements. *)
Theorem MixedFunctionSpace_ufl_element_single_sub_space
    (args : list AbstractFunctionSpace) (m : AbstractFunctionSpace) :
  MixedFunctionSpace___init__ args = Ok m ->
  (forall d e, args = [FunctionSpace d e] -> ufl_element m = Ok e)
  /\ (returns (ufl_element m) <-> length args = 1)
  /\ (length args <> 1 ->
      ufl_element m = Raise (UFLException multiple_elements_msg))
  /\ (forall d1 e1 d2 e2,
        args = [FunctionSpace d1 e1; FunctionSpace d2 e2] ->
        ufl_element m = Raise (UFLException multiple_elements_msg)
        /\ ufl_elements m = Ok [e1; e2]).
Proof.
  intros H.
  assert (forall d e, args = [FunctionSpace d e] ->
          m = MixedFunctionSpace args [e]) as Hone.
  { intros d e ->. injection H as <-. reflexivity. }
  assert (forall d1 e1 d2 e2, args = [FunctionSpace d1 e1; FunctionSpace d2 e2] ->
          m = MixedFunctionSpace args [e1; e2]) as Htwo.
  { intros d1 e1 d2 e2 ->. injection H as <-. reflexivity. }
  destruct (MixedFunctionSpace_init_Ok _ _ H) as (es & Hm & Hall).
  pose proof (Forall2_length _ _ _ Hall) as Hlen.
  clear H. revert Hone Htwo. subst m. intros Hone Htwo.
  assert (length args <> 1 ->
          ufl_element (MixedFunctionSpace args es)
          = Raise (UFLException multiple_elements_msg)) as Hfail.
  { intros Hn. simpl. rewrite bool_decide_eq_false_2 by congruence. reflexivity. }
  split; [|split; [|split]].
  - intros d e Ha. rewrite (Hone d e Ha). reflexivity.
  - split.
    + intros [e He]. destruct (decide (length args = 1)) as [|Hn]; [assumption|].
      rewrite (Hfail Hn) in He. discriminate.
    + intros H1. rewrite H1 in Hlen. simpl.
      destruct es as [|e [|? ?]]; try discriminate. simpl. eauto.
  - exact Hfail.
  - intros d1 e1 d2 e2 Ha. split.
    + apply Hfail. rewrite Ha. simpl. lia.
    + rewrite (Htwo d1 e1 d2 e2 Ha). reflexivity.
Qed.

(** *** Beyond the cell checks and [ufl_element] *)

Lemma collect_Ok {A} (f : A -> Result Data) (xs : list A) (ds : list Data) :
  collect f xs = Ok ds <-> Forall2 (fun x d => f x = Ok d) xs ds.
Proof.
  revert ds. induction xs as [|x xs IH]; intros ds; simpl.
  - split; [intros [= <-]; constructor | intros H; by inversion H].
  - rewrite bind_returns. split.
    + intros (d & Hd & H). apply bind_returns in H as (ds' & Hds & [= <-]).
      constructor; [assumption | by apply IH].
    + intros H. inversion H as [|? d ? ds' Hd Hds]; subst.
      exists d. split; [assumption|]. apply bind_returns.
      exists ds'. split; [by apply IH | reflexivity].
Qed.

Lemma collect_returns {A} (f : A -> Result Data) (xs : list A) :
  returns (collect f xs) <-> Forall (fun x => returns (f x)) xs.
Proof.
  induction xs as [|x xs IH]; simpl.
  - split; [constructor | eauto].
  - rewrite Forall_cons, <- IH. destruct (f x) as [d|e]; simpl.
    + destruct (collect f xs) as [ds|e]; simpl.
      * split; eauto.
      * split; [intros [? [=]] | intros [_ [? [=]]]].
    + split; [intros [? [=]] | intros [[? [=]] _]].
Qed.

Lemma signature_data_sub_spaces (l : list AbstractFunctionSpace)
    (renumbering : Domain -> option Z) :
  (fix go (l : list AbstractFunctionSpace) : Result (list Data) :=
     match l with
     | [] => Ok []
     | W :: l =>
       d ← _ufl_signature_data_ W renumbering; ds ← go l; Ok (d :: ds)
     end) l
  = collect (fun W => _ufl_signature_data_ W renumbering) l.
Proof. induction l as [|W l IH]; simpl; [reflexivity | by rewrite IH]. Qed.

(** X7: With one domain, a space is built exactly when the element is there,
    the domain has a cell, and the element names that one cell.  Without
    a domain nothing is checked, not even that there is an element.  The
    element is asked for its cell before the domain is looked at. *)
Theorem FunctionSpace_init_single_domain (d : Domain) (element : option Element) :
  (returns (FunctionSpace___init__ (DomainOne d) element)
   <-> exists e c, element = Some e /\ domain_ufl_cell d = Some c
                   /\ element_cell e = OneCell c)
  /\ FunctionSpace___init__ DomainNone element = Ok (FunctionSpace DomainNone element)
  /\ (element = None ->
      FunctionSpace___init__ (DomainOne d) element = Raise (AttributeError "cell")
      /\ forall ds, FunctionSpace___init__ (DomainTuple ds) element
                    = Raise (AttributeError "cell"))
  /\ (forall e, element = Some e -> domain_ufl_cell d = None ->
      FunctionSpace___init__ (DomainOne d) element
      = Raise (UFLException
          "Expected non-abstract domain for initalization of function space."))
  /\ (forall e c, element = Some e -> domain_ufl_cell d = Some c ->
      element_cell e <> OneCell c ->
      FunctionSpace___init__ (DomainOne d) element
      = Raise (UFLException "Non-matching cell of finite element and domain.")).
Proof.
  split; [|split; [reflexivity|split; [|split]]].
  - unfold FunctionSpace___init__. destruct element as [e|]; simpl.
    + destruct (check_domain d (element_cell e)) as [[]|err] eqn:Hc; simpl.
      * apply check_domain_Ok in Hc as (c & Hd & He). split; eauto 6.
      * split; [intros [? [=]]|]. intros (e' & c & [= <-] & Hd & He).
        assert (check_domain d (element_cell e) = Ok tt)
          by (apply check_domain_Ok; eauto). congruence.
    + split; [intros [? [=]] | intros (? & ? & [=] & _)].
  - intros ->. split; [reflexivity | intros ds; reflexivity].
  - intros e -> Hd. unfold FunctionSpace___init__, check_domain. simpl.
    rewrite Hd. reflexivity.
  - intros e c -> Hd He. unfold FunctionSpace___init__, check_domain. simpl.
    rewrite Hd. destruct (element_cell e) as [|c'|cs]; simpl; try reflexivity.
    rewrite bool_decide_eq_false_2; [reflexivity | congruence].
Qed.



(** X10: A mixed space is built exactly from function spaces proper: a tensor
    product or another mixed space among the arguments is refused.  The
    result keeps the arguments as its sub-spaces and holds one element per
    sub-space, the element of that sub-space. *)
Theorem MixedFunctionSpace_init_invariant (args : list AbstractFunctionSpace) :
  (returns (MixedFunctionSpace___init__ args)
   <-> Forall (fun V => type V = FunctionSpace_class) args)
  /\ (forall M, MixedFunctionSpace___init__ args = Ok M ->
        ufl_sub_spaces M = args
        /\ num_sub_spaces M = Ok (length args)
        /\ exists es, ufl_elements M = Ok es /\ length es = length args
             /\ Forall2 (fun V e => ufl_element V = Ok e) args es)
  /\ (~ Forall (fun V => type V = FunctionSpace_class) args ->
      MixedFunctionSpace___init__ args
      = Raise (UFLException "Expecting FunctionSpace objects")).
Proof.
  assert (forall l : list AbstractFunctionSpace,
            (exists es, collect_elements l = Ok es)
            \/ collect_elements l = Raise (UFLException "Expecting FunctionSpace objects"))
    as Hcases.
  { induction l as [|V l IH]; simpl; [eauto|].
    destruct V; simpl; eauto.
    destruct IH as [[es ->]| ->]; simpl; eauto. }
  assert (forall (l : list AbstractFunctionSpace) es, collect_elements l = Ok es ->
            Forall (fun V => type V = FunctionSpace_class) l) as Honly.
  { intros l es H. apply collect_elements_Ok in H.
    induction H as [|V e l es' (d & ->) _ IH]; constructor; [reflexivity | exact IH]. }
  assert (forall l : list AbstractFunctionSpace,
            Forall (fun V => type V = FunctionSpace_class) l ->
            exists es, collect_elements l = Ok es) as Hall.
  { intros l H. induction H as [|V l HV _ (es & Hes)]; simpl; [eauto|].
    destruct V; try discriminate. rewrite Hes. simpl. eauto. }
  unfold MixedFunctionSpace___init__. split; [|split].
  - split.
    + intros [M HM]. apply bind_returns in HM as (es & Hes & _). eauto.
    + intros H. destruct (Hall _ H) as (es & ->). simpl. eauto.
  - intros M HM. apply bind_returns in HM as (es & Hes & [= <-]). simpl.
    split; [reflexivity|]. split; [reflexivity|].
    exists es. split; [reflexivity|].
    apply collect_elements_Ok in Hes. split.
    + symmetry. by eapply Forall2_length.
    + eapply Forall2_impl; [exact Hes|]. intros V e (d & ->). reflexivity.
  - intros Hnot. destruct (Hcases args) as [(es & Hes)| ->]; [|reflexivity].
    destruct Hnot. by eapply Honly.
Qed.

Lemma tuple_getitem_spec {A} (t : list A) (i : Z) :
  let n := Z.of_nat (length t) in
  ((0 <= i < n)%Z -> exists a, t !! Z.to_nat i = Some a /\ tuple_getitem t i = Ok a
                            /\ tuple_getitem t (i - n) = Ok a)
  /\ ((i < - n \/ n <= i)%Z -> tuple_getitem t i = Raise IndexError).
Proof.
  intros n. unfold tuple_getitem. fold n. split.
  - intros Hi.
    destruct (lookup_lt_is_Some_2 t (Z.to_nat i)) as [a Ha]; [lia|].
    exists a. split; [exact Ha|]. split.
    + rewrite (bool_decide_eq_false_2 (i < 0)%Z) by lia.
      rewrite (bool_decide_eq_true_2 (0 <= i < n)%Z) by lia. by rewrite Ha.
    + rewrite (bool_decide_eq_true_2 (i - n < 0)%Z) by lia.
      rewrite (bool_decide_eq_true_2 (0 <= i - n + n < n)%Z) by lia.
      replace (i - n + n)%Z with i by lia. by rewrite Ha.
  - intros Hi. destruct (decide (i < 0)%Z) as [Hneg|Hpos].
    + rewrite (bool_decide_eq_true_2 (i < 0)%Z) by lia.
      rewrite (bool_decide_eq_false_2 (0 <= i + n < n)%Z) by lia. reflexivity.
    + rewrite (bool_decide_eq_false_2 (i < 0)%Z) by lia.
      rewrite (bool_decide_eq_false_2 (0 <= i < n)%Z) by lia. reflexivity.
Qed.

(** X11: [ufl_sub_space(i)] follows the indexing of tuples: with [n]
    sub-spaces it answers for the indices from [-n] to [n - 1], the
    negative ones counting from the end, and raises [IndexError] for every
    other index; a mixed space without sub-spaces has no valid index. *)
Theorem ufl_sub_space_indexing (l : list AbstractFunctionSpace)
    (es : list (option Element)) (i : Z) :
  let M := MixedFunctionSpace l es in
  let n := Z.of_nat (length l) in
  (returns (ufl_sub_space M i) <-> (- n <= i < n)%Z)
  /\ ((0 <= i < n)%Z ->
      exists W, l !! Z.to_nat i = Some W /\ ufl_sub_space M i = Ok W
                /\ ufl_sub_space M (i - n) = Ok W)
  /\ ((i < - n \/ n <= i)%Z -> ufl_sub_space M i = Raise IndexError).
Proof.
  intros M n. simpl.
  pose proof (tuple_getitem_spec l i) as [Hin Hout].
  split; [|split; [exact Hin | exact Hout]]. split.
  - intros [W HW]. destruct (decide (- n <= i < n)%Z) as [|Hn]; [assumption|].
    fold n in Hout. rewrite Hout in HW by lia. discriminate.
  - intros Hi. destruct (decide (0 <= i)%Z) as [Hpos|Hneg].
    + destruct Hin as (W & _ & -> & _); [fold n; lia | eauto].
    + destruct (tuple_getitem_spec l (i + n)) as [Hin' _].
      destruct Hin' as (W & _ & _ & HW); [fold n; lia|].
      fold n in HW. replace (i + n - n)%Z with i in HW by lia.
      rewrite HW. eauto.
Qed.

(** X12: The signature data of a tensor-product or mixed space exist exactly
    when those of all its sub-spaces do; they are the class name followed
    by the signature data of the sub-spaces in order, as the hash data are
    the class name followed by the hash data of the sub-spaces. *)
Theorem composite_signature_data (l : list AbstractFunctionSpace)
    (es : list (option Element)) (r : Domain -> option Z) :
  (returns (_ufl_signature_data_ (TensorProductFunctionSpace l) r)
   <-> Forall (fun W => returns (_ufl_signature_data_ W r)) l)
  /\ (returns (_ufl_signature_data_ (MixedFunctionSpace l es) r)
      <-> Forall (fun W => returns (_ufl_signature_data_ W r)) l)
  /\ (forall ds, Forall2 (fun W d => _ufl_signature_data_ W r = Ok d) l ds ->
        _ufl_signature_data_ (TensorProductFunctionSpace l) r
        = Ok (DTuple (DStr "TensorProductFunctionSpace" :: ds))
        /\ _ufl_signature_data_ (MixedFunctionSpace l es) r
           = Ok (DTuple (DStr "MixedFunctionSpace" :: ds)))
  /\ _ufl_hash_data_ (MixedFunctionSpace l es)
     = DTuple (DStr "MixedFunctionSpace" :: map _ufl_hash_data_ l).
Proof.
  simpl. rewrite !signature_data_sub_spaces.
  assert (forall tag : string,
    returns (ds ← collect (fun W => _ufl_signature_data_ W r) l;
             Ok (DTuple (DStr tag :: ds)))
    <-> Forall (fun W => returns (_ufl_signature_data_ W r)) l) as Hret.
  { intros tag. rewrite <- collect_returns.
    destruct (collect _ l); simpl; split; eauto; intros [? [=]]. }
  split; [apply Hret|]. split; [apply Hret|]. split; [|reflexivity].
  intros ds Hds. apply collect_Ok in Hds. rewrite Hds. split; reflexivity.
Qed.

(** X13: On a mixed space that came out of the constructor, [ufl_domains]
    reaches [join_domains] without failing and hands it the domains of the
    sub-spaces in order: nothing for a sub-space without domain, the one
    domain, or all domains of a tuple. *)
Theorem MixedFunctionSpace_ufl_domains (args : list AbstractFunctionSpace)
    (M : AbstractFunctionSpace) :
  MixedFunctionSpace___init__ args = Ok M ->
  exists dss,
    Forall2 (fun V ds => ufl_domains V = Ok ds) args dss
    /\ ufl_domains M = join_domains (concat dss)
    /\ (forall ds, join_domains (concat dss) = Ok ds ->
          ufl_domain M = match ds with
                         | [] => Ok DomainNone
                         | [d] => Ok (DomainOne d)
                         | _ => error "Found multiple domains, cannot return just one."
                         end).
Proof.
  intros H. apply MixedFunctionSpace_init_Ok in H as (es & -> & Hall).
  assert (exists dss, Forall2 (fun V ds => ufl_domains V = Ok ds) args dss
    /\ (fix extend (l : list AbstractFunctionSpace) : Result (list Domain) :=
          match l with
          | [] => Ok []
          | s :: l => ds ← ufl_domains s; rest ← extend l; Ok (ds ++ rest)%list
          end) args = Ok (concat dss)) as (dss & Hdss & Hext).
  { induction Hall as [|V e l es' (d & ->) _ (dss & Hdss & Hext)].
    - exists []. split; [constructor | reflexivity].
    - destruct d as [|d|ds].
      + exists ([] :: dss). split; [by constructor|]. rewrite Hext. reflexivity.
      + exists ([d] :: dss). split; [by constructor|]. rewrite Hext. reflexivity.
      + exists (ds :: dss). split; [by constructor|]. rewrite Hext. reflexivity. }
  exists dss. split; [exact Hdss|].
  assert (ufl_domains (MixedFunctionSpace args es) = join_domains (concat dss)) as HD.
  { simpl. rewrite Hext. reflexivity. }
  split; [exact HD|].
  intros ds Hj. unfold ufl_domain. rewrite HD, Hj. simpl.
  destruct ds as [|d [|d' ds]]; reflexivity.
Qed.

End Facts.

Import catalogue.

(** C2, as the claim has it, fails: a mixed space over twice the same
    function space holds exactly one distinct element, and [ufl_element]
    raises all the same. *)
Lemma MixedFunctionSpace_one_distinct_element_raises :
  let V := FunctionSpace (DomainOne mesh_2d) (Some P1) in
  let M := MixedFunctionSpace [V; V] [Some P1; Some P1] in
  MixedFunctionSpace___init__ [V; V] = Ok M
  /\ distinct_elements M = 1
  /\ ufl_element M = Raise (UFLException multiple_elements_msg).
Proof. vm_compute. repeat split. Qed.

Lemma MixedFunctionSpace_ufl_element_single_sub_space_witness :
  let V1 := FunctionSpace (DomainOne mesh_2d) (Some P1) in
  let V2 := FunctionSpace (DomainOne mesh_2d) (Some P2) in
  let M := MixedFunctionSpace [V1; V2] [Some P1; Some P2] in
  ufl_element M = Raise (UFLException multiple_elements_msg)
  /\ ufl_elements M = Ok [Some P1; Some P2].
Proof.
  intros V1 V2 M.
  assert (MixedFunctionSpace___init__ [V1; V2] = Ok M) as H by reflexivity.
  exact (proj2 (proj2 (proj2
    (MixedFunctionSpace_ufl_element_single_sub_space [V1; V2] M H)))
    _ _ _ _ eq_refl).
Defined.

Example FunctionSpace_on_mixed_domain :
  FunctionSpace___init__ (DomainTuple [mesh_2d; mesh_3d]) (Some P1_mixed)
  = Ok (FunctionSpace (DomainTuple [mesh_2d; mesh_3d]) (Some P1_mixed)).
Proof. vm_compute. reflexivity. Qed.

Example FunctionSpace_on_swapped_mixed_domain :
  FunctionSpace___init__ (DomainTuple [mesh_3d; mesh_2d]) (Some P1_mixed)
  = Raise (UFLException "Non-matching cell of finite element and domain.").
Proof. vm_compute. reflexivity. Qed.

Example FunctionSpace_on_short_mixed_domain :
  FunctionSpace___init__ (DomainTuple [mesh_2d]) (Some P1_mixed)
  = Raise (UFLException
      "Mixed cell (tuple) and mixed domain (tuple) must have the same length.").
Proof. vm_compute. reflexivity. Qed.

Example MixedFunctionSpace_of_one :
  let V := FunctionSpace (DomainOne mesh_2d) (Some P1) in
  (M ← MixedFunctionSpace___init__ [V]; ufl_element M) = Ok (Some P1).
Proof. vm_compute. reflexivity. Qed.

Lemma FunctionSpace_init_checks_cells_witness :
  FunctionSpace___init__ (DomainOne mesh_2d) (Some P1_tet)
  = Raise (UFLException "Non-matching cell of finite element and domain.").
Proof.
  destruct (proj1 (FunctionSpace_init_checks_cells P1_tet)
              mesh_2d triangle tetrahedron) as [_ H].
  - reflexivity.
  - reflexivity.
  - apply H. discriminate.
Defined.

Lemma FunctionSpace_init_single_domain_witness :
  FunctionSpace___init__ (DomainOne (mkMesh 5 None)) (Some P1)
  = Raise (UFLException
      "Expected non-abstract domain for initalization of function space.").
Proof.
  apply (proj1 (proj2 (proj2 (proj2
    (FunctionSpace_init_single_domain (mkMesh 5 None) (Some P1))))) P1);
    reflexivity.
Defined.



Lemma MixedFunctionSpace_init_invariant_witness :
  let V := FunctionSpace (DomainOne mesh_2d) (Some P1) in
  let W := FunctionSpace (DomainOne mesh_3d) (Some P1_tet) in
  let M := MixedFunctionSpace [V; W] [Some P1; Some P1_tet] in
  ufl_sub_spaces M = [V; W]
  /\ num_sub_spaces M = Ok 2
  /\ exists es, ufl_elements M = Ok es /\ length es = 2
       /\ Forall2 (fun V e => ufl_element V = Ok e) [V; W] es.
Proof.
  intros V W M.
  apply (proj1 (proj2 (MixedFunctionSpace_init_invariant [V; W])) M).
  reflexivity.
Defined.

Lemma ufl_sub_space_indexing_witness :
  let V := FunctionSpace (DomainOne mesh_2d) (Some P1) in
  let W := FunctionSpace (DomainOne mesh_3d) (Some P1_tet) in
  exists X, [V; W] !! Z.to_nat 1 = Some X
    /\ ufl_sub_space (MixedFunctionSpace [V; W] [Some P1; Some P1_tet]) 1%Z = Ok X
    /\ ufl_sub_space (MixedFunctionSpace [V; W] [Some P1; Some P1_tet]) (1 - 2)%Z
       = Ok X.
Proof.
  intros V W.
  apply (proj1 (proj2 (ufl_sub_space_indexing [V; W] [Some P1; Some P1_tet] 1%Z))).
  simpl. lia.
Defined.

Lemma composite_signature_data_witness :
  let V := FunctionSpace (DomainOne mesh_2d) (Some P1) in
  let r := fun _ : Mesh => Some 0%Z in
  let d := DTuple [DStr "FunctionSpace"; DTuple [DStr "Mesh"; DInt 0];
                   FiniteElement_data P1] in
  _ufl_signature_data_ (TensorProductFunctionSpace [V; V]) r
  = Ok (DTuple [DStr "TensorProductFunctionSpace"; d; d])
  /\ _ufl_signature_data_ (MixedFunctionSpace [V; V] []) r
     = Ok (DTuple [DStr "MixedFunctionSpace"; d; d]).
Proof.
  intros V r d.
  apply (proj1 (proj2 (proj2 (composite_signature_data [V; V] [] r))) [d; d]).
  repeat constructor.
Defined.

Lemma MixedFunctionSpace_ufl_domains_witness :
  let V := FunctionSpace (DomainOne mesh_2d) (Some P1) in
  let W := FunctionSpace (DomainTuple [mesh_2d; mesh_3d]) (Some P1_mixed) in
  let M := MixedFunctionSpace [V; W] [Some P1; Some P1_mixed] in
  exists dss,
    Forall2 (fun V ds => ufl_domains V = Ok ds) [V; W] dss
    /\ ufl_domains M = join_domains (concat dss)
    /\ (forall ds, join_domains (concat dss) = Ok ds ->
          ufl_domain M = match ds with
                         | [] => Ok DomainNone
                         | [d] => Ok (DomainOne d)
                         | _ => error "Found multiple domains, cannot return just one."
                         end).
Proof.
  intros V W M.
  apply (MixedFunctionSpace_ufl_domains [V; W] M). reflexivity.
Defined.

Example MixedFunctionSpace_domains_joined :
  let V := FunctionSpace (DomainOne mesh_2d) (Some P1) in
  let W := FunctionSpace (DomainTuple [mesh_2d; mesh_3d]) (Some P1_mixed) in
  let M := MixedFunctionSpace [V; W] [Some P1; Some P1_mixed] in
  ufl_domains M = Ok [mesh_2d; mesh_3d]
  /\ ufl_domain M
     = Raise (UFLException "Found multiple domains, cannot return just one.").
Proof. vm_compute. split; reflexivity. Qed.

End functionspace_facts.

(** ** Coefficients *)

Module coefficient_facts.

Import functionspace coefficient.

Section Facts.

Context {Cell Domain Element : Type} `{!Collaborators Cell Domain Element}.

Abbreviation AbstractFunctionSpace := (AbstractFunctionSpace Domain Element).
Abbreviation Coefficient := (Coefficient Domain Element).
Abbreviation Value := (Value Domain Element).
Abbreviation Renumbering := (Renumbering Domain Element).

(** Induction over spaces, with the hypothesis for every sub-space. *)
Lemma Space_nested_ind (P : AbstractFunctionSpace -> Prop) :
  (forall d e, P (FunctionSpace d e)) ->
  (forall l, Forall P l -> P (TensorProductFunctionSpace l)) ->
  (forall l es, Forall P l -> P (MixedFunctionSpace l es)) ->
  forall V, P V.
Proof.
  intros HSpace HTensor HMixed. fix IH 1. intros [d e|l|l es].
  - apply HSpace.
  - apply HTensor. induction l as [|W l IHl]; constructor.
    + apply IH.
    + exact IHl.
  - apply HMixed. induction l as [|W l IHl]; constructor.
    + apply IH.
    + exact IHl.
Qed.

Lemma same_space_eq (V W : AbstractFunctionSpace) : same_space V W = true -> V = W.
Proof.
  revert W.
  assert (forall l, Forall (fun V => forall W, same_space V W = true -> V = W) l ->
          forall k,
            (fix go (l k : list AbstractFunctionSpace) {struct l} : bool :=
               match l, k with
               | [], [] => true
               | V :: l, W :: k => same_space V W && go l k
               | _, _ => false
               end) l k = true -> l = k) as Hlist.
  { intros l Hl. induction Hl as [|x l Hx _ IHl]; intros [|y k] H;
      try discriminate; [reflexivity|].
    apply andb_true_iff in H as [H1 H2].
    rewrite (Hx y H1), (IHl k H2). reflexivity. }
  induction V as [d e|l IH|l es IH] using Space_nested_ind;
    intros [d' e'|l'|l' es'] H; simpl in H; try discriminate.
  - apply andb_true_iff in H as [H1 H2].
    apply bool_decide_eq_true in H1, H2. congruence.
  - rewrite (Hlist l IH l' H). reflexivity.
  - apply andb_true_iff in H as [H1 H2].
    apply bool_decide_eq_true in H2.
    rewrite (Hlist l IH l' H1), H2. reflexivity.
Qed.

Lemma AbstractFunctionSpace_eq_refl (V : AbstractFunctionSpace) :
  AbstractFunctionSpace___eq__ V V = true.
Proof.
  unfold AbstractFunctionSpace___eq__.
  rewrite bool_decide_eq_true_2 by reflexivity. apply Data_eqb_refl.
Qed.

(** One object has one count and one function space. *)
Lemma is_same_attributes (a b : Coefficient) :
  is_ a b = true ->
  _count a = _count b /\ _ufl_function_space a = _ufl_function_space b.
Proof.
  destruct a, b. simpl. intros H.
  apply andb_true_iff in H as [H _]. apply andb_true_iff in H as [H _].
  apply andb_true_iff in H as [H _]. apply andb_true_iff in H as [H Hs].
  apply andb_true_iff in H as [_ Hc].
  split; [by apply bool_decide_eq_true in Hc | by apply same_space_eq].
Qed.

(** The identity shortcut of [__eq__] never changes its answer. *)
Lemma Coefficient_eq_unfold (a b : Coefficient) :
  Coefficient___eq__ a (VCoefficient b)
  = bool_decide (_count a = _count b)
    && AbstractFunctionSpace___eq__ (_ufl_function_space a) (_ufl_function_space b).
Proof.
  unfold Coefficient___eq__. destruct (is_ a b) eqn:His; [|reflexivity].
  apply is_same_attributes in His as [Hc Hs].
  rewrite bool_decide_eq_true_2 by exact Hc.
  rewrite Hs, AbstractFunctionSpace_eq_refl. reflexivity.
Qed.

(** C9: two coefficients are equal exactly when their counts are equal
    and their function spaces are equal; replacing part and parent on
    either side leaves the answer unchanged. *)
Theorem Coefficient_eq_count_and_space (a b : Coefficient) :
  (Coefficient___eq__ a (VCoefficient b) = true
   <-> _count a = _count b
       /\ AbstractFunctionSpace___eq__ (_ufl_function_space a)
                                        (_ufl_function_space b) = true)
  /\ (forall part_a parent_a part_b parent_b,
        Coefficient___eq__ (with_part_parent a part_a parent_a)
                           (VCoefficient (with_part_parent b part_b parent_b))
        = Coefficient___eq__ a (VCoefficient b)).
Proof.
  split.
  - rewrite Coefficient_eq_unfold, andb_true_iff, bool_decide_eq_true. reflexivity.
  - intros. rewrite !Coefficient_eq_unfold. reflexivity.
Qed.

Lemma Value_eq_of_data_refl (d : Data) : Value_eq (of_data d) (of_data d) = true.
Proof.
  induction d as [|s|z|items IH] using Data_nested_ind; simpl.
  - reflexivity.
  - by apply bool_decide_eq_true.
  - by apply bool_decide_eq_true.
  - induction IH as [|x l Hx _ IHl]; simpl; [reflexivity|].
    rewrite Hx. exact IHl.
Qed.

Lemma Value_eq_part (p q : option Z) :
  Value_eq (of_option VInt p) (of_option VInt q) = bool_decide (p = q).
Proof.
  destruct p as [x|], q as [y|]; simpl; try reflexivity.
  destruct (decide (x = y)) as [->|Hne].
  - by rewrite !bool_decide_eq_true_2.
  - rewrite !bool_decide_eq_false_2; [reflexivity| |assumption]. congruence.
Qed.

(** The tuple that [_ufl_signature_data_] builds. *)
Lemma signature_data_Ok (a : Coefficient) (r : Renumbering) n fsdata :
  coefficient_numbers r a = Some n ->
  functionspace._ufl_signature_data_ (_ufl_function_space a) (domain_numbers r)
  = Ok fsdata ->
  _ufl_signature_data_ a r
  = Ok (VTuple [VStr "Coefficient"; VInt n; of_option VInt (_part a);
                of_option VCoefficient (_parent a); of_data fsdata]).
Proof.
  intros Hn Hfs. unfold _ufl_signature_data_, getitem. rewrite Hn. simpl.
  rewrite Hfs. reflexivity.
Qed.

(** C3: two coefficients on the same function space, without part and
    parent, which the renumbering sends to the same integer, have the same
    signature data, whatever their own counts; the tuple holds the
    renumbered integer and no count. *)
Theorem Coefficient_signature_data_renumbered (a b : Coefficient)
    (r : Renumbering) (n : Z) :
  _ufl_function_space a = _ufl_function_space b ->
  _part a = None -> _parent a = None ->
  _part b = None -> _parent b = None ->
  coefficient_numbers r a = Some n ->
  coefficient_numbers r b = Some n ->
  _ufl_signature_data_ a r = _ufl_signature_data_ b r
  /\ (forall fsdata,
        functionspace._ufl_signature_data_ (_ufl_function_space a)
          (domain_numbers r) = Ok fsdata ->
        let t := VTuple [VStr "Coefficient"; VInt n; VNone; VNone;
                         of_data fsdata] in
        _ufl_signature_data_ a r = Ok t
        /\ _ufl_signature_data_ b r = Ok t
        /\ Value_eq t t = true).
Proof.
  intros Hfs Hpa Hqa Hpb Hqb Ha Hb. split.
  - unfold _ufl_signature_data_, getitem.
    rewrite Ha, Hb, Hfs, Hpa, Hqa, Hpb, Hqb. reflexivity.
  - intros fsdata Hd t. split; [|split].
    + rewrite (signature_data_Ok a r n fsdata Ha Hd), Hpa, Hqa. reflexivity.
    + rewrite Hfs in Hd.
      rewrite (signature_data_Ok b r n fsdata Hb Hd), Hpb, Hqb. reflexivity.
    + unfold t. simpl. rewrite !bool_decide_eq_true_2 by reflexivity.
      rewrite Value_eq_of_data_refl. reflexivity.
Qed.

(** C10: two coefficients with the same count and equal function spaces
    are equal under [==]; their signature tuples carry part and parent as
    they are, so the tuples are different values as soon as part or parent
    differ, and compare unequal under [==] as soon as the parts differ or
    the parents compare unequal. *)
Theorem Coefficient_signature_data_keeps_part_and_parent (a b : Coefficient)
    (r : Renumbering) (n m : Z) (da db : Data) :
  _count a = _count b ->
  AbstractFunctionSpace___eq__ (_ufl_function_space a) (_ufl_function_space b)
  = true ->
  coefficient_numbers r a = Some n ->
  coefficient_numbers r b = Some m ->
  functionspace._ufl_signature_data_ (_ufl_function_space a) (domain_numbers r)
  = Ok da ->
  functionspace._ufl_signature_data_ (_ufl_function_space b) (domain_numbers r)
  = Ok db ->
  Coefficient___eq__ a (VCoefficient b) = true
  /\ exists ta tb,
       _ufl_signature_data_ a r = Ok ta
       /\ _ufl_signature_data_ b r = Ok tb
       /\ ta = VTuple [VStr "Coefficient"; VInt n; of_option VInt (_part a);
                       of_option VCoefficient (_parent a); of_data da]
       /\ tb = VTuple [VStr "Coefficient"; VInt m; of_option VInt (_part b);
                       of_option VCoefficient (_parent b); of_data db]
       /\ (_part a <> _part b \/ _parent a <> _parent b -> ta <> tb)
       /\ (_part a <> _part b
           \/ Value_eq (of_option VCoefficient (_parent a))
                       (of_option VCoefficient (_parent b)) = false ->
           Value_eq ta tb = false).
Proof.
  intros Hc Hfs Ha Hb Hda Hdb. split.
  - rewrite Coefficient_eq_unfold, Hfs, andb_true_r.
    by apply bool_decide_eq_true.
  - eexists _, _.
    split; [exact (signature_data_Ok a r n da Ha Hda)|].
    split; [exact (signature_data_Ok b r m db Hb Hdb)|].
    split; [reflexivity|]. split; [reflexivity|]. split.
    + intros Hne [= _ Hp Hq _]. destruct Hne as [Hne|Hne]; apply Hne.
      * destruct (_part a), (_part b); simpl in Hp; congruence.
      * destruct (_parent a), (_parent b); simpl in Hq; congruence.
    + intros Hne.
      change (Value_eq (VStr "Coefficient") (VStr "Coefficient")
              && (Value_eq (VInt n) (VInt m)
              && (Value_eq (of_option VInt (_part a)) (of_option VInt (_part b))
              && (Value_eq (of_option VCoefficient (_parent a))
                           (of_option VCoefficient (_parent b))
              && (Value_eq (of_data da) (of_data db) && true)))) = false).
      destruct Hne as [Hne|Hne].
      * rewrite Value_eq_part, (bool_decide_eq_false_2 _ Hne).
        rewrite andb_false_l, !andb_false_r. reflexivity.
      * rewrite Hne. rewrite andb_false_l, !andb_false_r. reflexivity.
Qed.

(** *** Beyond equality and the signature tuple *)

Lemma AbstractFunctionSpace_eq_iff (V W : AbstractFunctionSpace) :
  AbstractFunctionSpace___eq__ V W = true
  <-> type V = type W /\ _ufl_hash_data_ V = _ufl_hash_data_ W.
Proof.
  unfold AbstractFunctionSpace___eq__.
  rewrite andb_true_iff, bool_decide_eq_true, Data_eqb_eq. reflexivity.
Qed.

Lemma Coefficient_eq_iff (a b : Coefficient) :
  Coefficient___eq__ a (VCoefficient b) = true
  <-> _count a = _count b
      /\ type (_ufl_function_space a) = type (_ufl_function_space b)
      /\ _ufl_hash_data_ (_ufl_function_space a)
         = _ufl_hash_data_ (_ufl_function_space b).
Proof.
  rewrite Coefficient_eq_unfold, andb_true_iff, bool_decide_eq_true.
  rewrite AbstractFunctionSpace_eq_iff. reflexivity.
Qed.

(** X14: [==] is an equivalence on coefficients, and no coefficient equals a
    value of another kind. *)
Theorem Coefficient_eq_equivalence (a b c : Coefficient) (v : Value) :
  Coefficient___eq__ a (VCoefficient a) = true
  /\ Coefficient___eq__ a (VCoefficient b) = Coefficient___eq__ b (VCoefficient a)
  /\ (Coefficient___eq__ a (VCoefficient b) = true ->
      Coefficient___eq__ b (VCoefficient c) = true ->
      Coefficient___eq__ a (VCoefficient c) = true)
  /\ ((forall b', v <> VCoefficient b') -> Coefficient___eq__ a v = false).
Proof.
  split; [|split; [|split]].
  - apply Coefficient_eq_iff. auto.
  - destruct (Coefficient___eq__ a (VCoefficient b)) eqn:Hab;
      destruct (Coefficient___eq__ b (VCoefficient a)) eqn:Hba; try reflexivity.
    + apply Coefficient_eq_iff in Hab as (? & ? & ?).
      assert (Coefficient___eq__ b (VCoefficient a) = true)
        by (apply Coefficient_eq_iff; auto). congruence.
    + apply Coefficient_eq_iff in Hba as (? & ? & ?).
      assert (Coefficient___eq__ a (VCoefficient b) = true)
        by (apply Coefficient_eq_iff; auto). congruence.
  - rewrite !Coefficient_eq_iff. intros (? & ? & ?) (? & ? & ?).
    repeat split; congruence.
  - intros Hv. destruct v; try reflexivity. destruct (Hv c0). reflexivity.
Qed.

(** X15: On a function space, a coefficient is built exactly when the space
    has one element to give: never on a tensor product, never on a mixed
    space whose element list is not of length one, never on a function
    space without element.  The coefficient keeps the space it was given,
    takes its shape from the element, and stores part and parent as they
    are; its [mixed()] answers for a function space proper and raises on a
    mixed space, which has no such method. *)
Theorem Coefficient_init_on_space (V : AbstractFunctionSpace)
    (count part : option Z) (parent : option Coefficient) (g : Globals) :
  let r := (Coefficient___init__ (ArgSpace V) count part parent g).1 in
  (returns r <-> exists e, functionspace.ufl_element V = Ok (Some e))
  /\ (forall a, r = Ok a ->
        exists e, functionspace.ufl_element V = Ok (Some e)
          /\ _ufl_function_space a = V
          /\ _ufl_shape a = element_value_shape e
          /\ _part a = part /\ _parent a = parent
          /\ (forall c, count = Some c -> _count a = c)
          /\ (forall d e', V = FunctionSpace d e' ->
                mixed a = Ok (match d with DomainTuple _ => true | _ => false end))
          /\ (forall l es, V = MixedFunctionSpace l es ->
                mixed a = Raise (AttributeError "mixed")))
  /\ (forall l, V = TensorProductFunctionSpace l ->
        r = Raise (AttributeError "ufl_element"))
  /\ (forall l es, V = MixedFunctionSpace l es -> length es <> 1 ->
        r = Raise (UFLException multiple_elements_msg))
  /\ (forall d, V = FunctionSpace d None ->
        r = Raise (AttributeError "value_shape")).
Proof.
  intros r. unfold Coefficient___init__, counted_init in r.
  destruct (counted count (_globalcount g)) as [c n] eqn:Hcount.
  simpl in r.
  assert (forall c', count = Some c' -> c = c') as Hgiven.
  { intros c' ->. unfold counted in Hcount. simpl in Hcount. congruence. }
  destruct (functionspace.ufl_element V) as [[e|]|err] eqn:He; subst r; simpl.
  - split; [split; eauto|]. split.
    + intros a [= <-]. exists e. simpl.
      split; [reflexivity|]. split; [reflexivity|]. split; [reflexivity|].
      split; [reflexivity|]. split; [reflexivity|]. split; [exact Hgiven|].
      split.
      * intros d e' ->. unfold mixed. simpl. destruct d; reflexivity.
      * intros l es ->. reflexivity.
    + split; [intros l ->; discriminate|].
      split; [|intros d ->; discriminate].
      intros l es -> Hlen. simpl in He.
      rewrite bool_decide_eq_false_2 in He by exact Hlen. discriminate.
  - split; [split; [intros [? [=]] | intros [? [=]]]|].
    split; [discriminate|]. split; [intros l ->; discriminate|].
    split; [|reflexivity].
    intros l es -> Hlen. simpl in He.
    rewrite bool_decide_eq_false_2 in He by exact Hlen. discriminate.
  - split; [split; [intros [? [=]] | intros [? [=]]]|].
    split; [discriminate|]. split; [intros l ->; simpl in He; congruence|].
    split; [|intros d ->; discriminate].
    intros l es -> Hlen. simpl in He.
    rewrite bool_decide_eq_false_2 in He by exact Hlen.
    injection He as <-. reflexivity.
Qed.




(** X17: Signature data exist exactly when the renumbering knows the
    coefficient and the function space has signature data; an unknown
    coefficient is a [KeyError], raised before the space is looked at. *)
Theorem Coefficient_signature_data_returns (a : Coefficient) (r : Renumbering) :
  (returns (_ufl_signature_data_ a r)
   <-> is_Some (coefficient_numbers r a)
       /\ returns (functionspace._ufl_signature_data_ (_ufl_function_space a)
                     (domain_numbers r)))
  /\ (coefficient_numbers r a = None -> _ufl_signature_data_ a r = Raise KeyError)
  /\ (forall n e, coefficient_numbers r a = Some n ->
        functionspace._ufl_signature_data_ (_ufl_function_space a)
          (domain_numbers r) = Raise e ->
        _ufl_signature_data_ a r = Raise e).
Proof.
  unfold _ufl_signature_data_, getitem.
  destruct (coefficient_numbers r a) as [n|]; simpl.
  - destruct (functionspace._ufl_signature_data_ _ _) as [d|e]; simpl.
    + split; [split; eauto|]. split; [discriminate|]. intros ? ? _ [=].
    + split; [split; [intros [? [=]] | intros [_ [? [=]]]]|].
      split; [discriminate|]. intros ? ? _ [= <-]. reflexivity.
  - split; [split; [intros [? [=]] | intros [[? [=]] _]]|].
    split; [reflexivity|]. intros ? ? [=].
Qed.


(** X19: The printed name of a coefficient is [w_] and the count for a count
    of one digit, [w_{...}] around the count for every other count,
    negative ones included; coefficients print alike exactly when their
    counts are the same. *)
Theorem Coefficient_str_by_count (a b : Coefficient) :
  ((0 <= _count a <= 9)%Z ->
   Coefficient___str__ a = "w_" +:+ str_int (_count a))
  /\ (~ (0 <= _count a <= 9)%Z ->
      Coefficient___str__ a = "w_{" +:+ str_int (_count a) +:+ "}")
  /\ (Coefficient___str__ a = Coefficient___str__ b <-> _count a = _count b).
Proof.
  unfold Coefficient___str__. split; [|split].
  - intros H. by rewrite bool_decide_eq_true_2 by (by apply str_int_length).
  - intros H. rewrite bool_decide_eq_false_2; [reflexivity|].
    unfold str_int. by rewrite str_int_length.
  - split; [|by intros ->].
    case_bool_decide as Ha; case_bool_decide as Hb; intros H.
    + apply (inj (String.append "w_")) in H. by apply (inj pretty).
    + exfalso. apply (f_equal String.length) in H.
      rewrite !string_length_app in H. simpl in H. lia.
    + exfalso. apply (f_equal String.length) in H.
      rewrite !string_length_app in H. simpl in H. lia.
    + apply (inj (String.append "w_{")) in H. apply string_app_inj_r in H.
      by apply (inj pretty).
Qed.

Lemma Coefficient_init_space_Ok (V : AbstractFunctionSpace) (e : Element)
    (count part : option Z) (parent : option Coefficient) (g : Globals) :
  functionspace.ufl_element V = Ok (Some e) ->
  exists a g',
    Coefficient___init__ (ArgSpace V) count part parent g = (Ok a, g')
    /\ _ufl_function_space a = V /\ _ufl_shape a = element_value_shape e
    /\ _part a = part /\ _parent a = parent.
Proof.
  intros He. unfold Coefficient___init__, counted_init.
  destruct (counted count (_globalcount g)) as [c n]. simpl. rewrite He. simpl.
  eexists _, _. split; [reflexivity|]. repeat split.
Qed.

Lemma Coefficients_comprehension_Ok (l : list AbstractFunctionSpace)
    (es : list (option Element)) (indices : list nat) (g : Globals) :
  Forall (fun V => exists e, functionspace.ufl_element V = Ok (Some e)) l ->
  Forall (fun i => i < length l) indices ->
  exists cs g',
    Coefficients_comprehension (MixedFunctionSpace l es) indices g = (Ok cs, g')
    /\ Forall2 (fun c i => l !! i = Some (_ufl_function_space c)
                           /\ _part c = None /\ _parent c = None) cs indices.
Proof.
  intros Hel Hidx. revert g.
  induction Hidx as [|i indices Hi _ IH]; intros g.
  - eexists _, _. split; [reflexivity | constructor].
  - destruct (functionspace_facts.tuple_getitem_spec l (Z.of_nat i)) as [Hin _].
    destruct Hin as (V & HV & Hget & _); [lia|]. rewrite Nat2Z.id in HV.
    rewrite Forall_forall in Hel.
    destruct (Hel V) as [e He]; [by eapply list_elem_of_lookup_2|].
    destruct (Coefficient_init_space_Ok V e None None None g He)
      as (a & g' & Hinit & Hfs & _ & Hp & Hq).
    destruct (IH g') as (cs & g'' & Hrest & Hall).
    exists (a :: cs), g''. split.
    + change (Coefficients_comprehension (MixedFunctionSpace l es) (i :: indices) g)
        with (match tuple_getitem l (Z.of_nat i) with
              | Raise e => (Raise e, g)
              | Ok V =>
                let '(c, g) := Coefficient___init__ (ArgSpace V) None None None g in
                match c with
                | Raise e => (Raise e, g)
                | Ok c =>
                  let '(cs, g) :=
                    Coefficients_comprehension (MixedFunctionSpace l es) indices g in
                  (cons c <$> cs, g)
                end
              end).
      rewrite Hget, Hinit, Hrest. reflexivity.
    + constructor; [|exact Hall]. by rewrite Hfs.
Qed.

(** X20: [Coefficients] on a mixed space that came out of the constructor, all
    of whose sub-spaces have an element: it gives one coefficient per
    sub-space, in order, each on its sub-space and without part or
    parent, although no single coefficient can be built on the mixed space
    itself when it has two sub-spaces or more. *)
Theorem Coefficients_on_mixed_space (split : Coefficient -> Result (list Value))
    (args : list AbstractFunctionSpace) (M : AbstractFunctionSpace) (g : Globals) :
  MixedFunctionSpace___init__ args = Ok M ->
  Forall (fun V => exists e, functionspace.ufl_element V = Ok (Some e)) args ->
  (exists cs,
     (Coefficients split (ArgSpace M) g).1 = Ok (map VCoefficient cs)
     /\ Forall2 (fun c V => _ufl_function_space c = V
                            /\ _part c = None /\ _parent c = None) cs args)
  /\ (2 <= length args ->
      (Coefficient___init__ (ArgSpace M) None None None g).1
      = Raise (UFLException multiple_elements_msg)).
Proof.
  intros HM Hel.
  apply functionspace_facts.MixedFunctionSpace_init_Ok in HM as (es & -> & Hes).
  split.
  - destruct (Coefficients_comprehension_Ok args es (seq 0 (length args)) g Hel)
      as (cs & g' & Hcs & Hall).
    { apply Forall_forall. intros i Hi. apply elem_of_seq in Hi. lia. }
    exists cs. split.
    + unfold Coefficients. simpl. rewrite Hcs. reflexivity.
    + apply Forall2_same_length_lookup. split.
      * rewrite (Forall2_length _ _ _ Hall). apply length_seq.
      * intros i c V Hc HV.
        rewrite Forall2_lookup in Hall. specialize (Hall i).
        rewrite Hc in Hall. inversion Hall as [? j (Hj & Hp & Hq) E1 E2|]; subst.
        symmetry in E2. apply lookup_seq in E2 as [-> _]. simpl in Hj.
        split; [congruence | by split].
  - intros Hlen. pose proof (Forall2_length _ _ _ Hes) as Hl.
    unfold Coefficient___init__, counted_init.
    destruct (counted None (_globalcount g)) as [c n]. simpl.
    rewrite bool_decide_eq_false_2 by lia. reflexivity.
Qed.

End Facts.

Import catalogue.

(** The legacy call with an element: the space is built on the default
    mesh of the element's cell. *)
Example Coefficient_on_element :
  Coefficient___init__ (ArgElement P1) None (Some 1%Z) None (mkGlobals 4 9)
  = (Ok (mkCoefficient 9 4
           (FunctionSpace (DomainOne (mkMesh 0 (Some triangle))) (Some P1))
           [] (Some 1%Z) None),
     mkGlobals 5 10).
Proof. vm_compute. reflexivity. Qed.

(** A mixed space of two sub-spaces has no single element, so no
    coefficient can be built on it; the counter has moved on all the same. *)
Example Coefficient_on_mixed_space :
  let V := FunctionSpace (DomainOne mesh_2d) (Some P1) in
  let M := MixedFunctionSpace [V; V] [Some P1; Some P1] in
  Coefficient___init__ (ArgSpace M) None None None (mkGlobals 0 0)
  = (Raise (UFLException multiple_elements_msg), mkGlobals 1 1).
Proof. vm_compute. reflexivity. Qed.

Lemma Coefficient_signature_data_renumbered_witness :
  let V := FunctionSpace (DomainOne mesh_2d) (Some P1) in
  let a := mkCoefficient 0 0 V [] None None in
  let b := mkCoefficient 1 1 V [] None None in
  let r := mkRenumbering (fun _ => Some 0%Z) (fun _ => Some 0%Z) in
  Coefficient___init__ (ArgSpace V) None None None (mkGlobals 0 0)
  = (Ok a, mkGlobals 1 1)
  /\ Coefficient___init__ (ArgSpace V) None None None (mkGlobals 1 1)
     = (Ok b, mkGlobals 2 2)
  /\ _count a <> _count b
  /\ _ufl_signature_data_ a r = _ufl_signature_data_ b r.
Proof.
  intros V a b r.
  split; [reflexivity|]. split; [reflexivity|]. split; [discriminate|].
  apply (proj1 (Coefficient_signature_data_renumbered a b r 0
                  eq_refl eq_refl eq_refl eq_refl eq_refl eq_refl eq_refl)).
Defined.

Lemma Coefficient_signature_data_keeps_part_and_parent_witness :
  let V := FunctionSpace (DomainOne mesh_2d) (Some P1) in
  let a := mkCoefficient 0 7 V [] (Some 0%Z) None in
  let b := mkCoefficient 1 7 V [] (Some 1%Z) None in
  let r := mkRenumbering (fun _ => Some 0%Z) (fun _ => Some 0%Z) in
  Coefficient___eq__ a (VCoefficient b) = true
  /\ exists ta tb,
       _ufl_signature_data_ a r = Ok ta /\ _ufl_signature_data_ b r = Ok tb
       /\ ta <> tb /\ Value_eq ta tb = false.
Proof.
  intros V a b r.
  destruct (Coefficient_signature_data_keeps_part_and_parent a b r 0 0
              (DTuple [DStr "FunctionSpace"; DTuple [DStr "Mesh"; DInt 0];
                       FiniteElement_data P1])
              (DTuple [DStr "FunctionSpace"; DTuple [DStr "Mesh"; DInt 0];
                       FiniteElement_data P1])
              eq_refl)
    as (Heq & ta & tb & Ha & Hb & _ & _ & Hne & Hpy);
    [vm_compute; reflexivity | reflexivity | reflexivity
    | reflexivity | reflexivity |].
  split; [exact Heq|]. exists ta, tb.
  split; [exact Ha|]. split; [exact Hb|]. split.
  - apply Hne. left. discriminate.
  - apply Hpy. left. discriminate.
Defined.

Lemma Coefficient_eq_equivalence_witness :
  let V := FunctionSpace (DomainOne mesh_2d) (Some P1) in
  let a := mkCoefficient 0 3 V [] None None in
  let b := mkCoefficient 1 3 V [] (Some 0%Z) None in
  let c := mkCoefficient 2 3 V [] (Some 1%Z) (Some a) in
  Coefficient___eq__ a (VCoefficient c) = true.
Proof.
  intros V a b c.
  apply (proj1 (proj2 (proj2 (Coefficient_eq_equivalence a b c VNone))));
    vm_compute; reflexivity.
Defined.

Lemma Coefficient_init_on_space_witness :
  let V := FunctionSpace (DomainOne mesh_2d) (Some P1) in
  let M := MixedFunctionSpace [V] [Some P1] in
  exists e, functionspace.ufl_element M = Ok (Some e)
    /\ _ufl_function_space (mkCoefficient 0 0 M [] None None) = M
    /\ _ufl_shape (mkCoefficient 0 0 M [] None None) = element_value_shape e
    /\ _part (mkCoefficient 0 0 M [] None None) = None
    /\ _parent (mkCoefficient 0 0 M [] None None) = None
    /\ (forall c, None = Some c -> _count (mkCoefficient 0 0 M [] None None) = c)
    /\ (forall d e', M = FunctionSpace d e' ->
          mixed (mkCoefficient 0 0 M [] None None)
          = Ok (match d with DomainTuple _ => true | _ => false end))
    /\ (forall l es, M = MixedFunctionSpace l es ->
          mixed (mkCoefficient 0 0 M [] None None) = Raise (AttributeError "mixed")).
Proof.
  intros V M.
  apply (proj1 (proj2 (Coefficient_init_on_space M None None None (mkGlobals 0 0)))).
  reflexivity.
Defined.


Lemma Coefficient_signature_data_returns_witness :
  let V := FunctionSpace (DomainOne mesh_2d) (Some P1) in
  let a := mkCoefficient 0 3 V [] None None in
  _ufl_signature_data_ a (mkRenumbering (fun _ => None) (fun _ => Some 0%Z))
  = Raise KeyError.
Proof.
  intros V a.
  apply (proj1 (proj2 (Coefficient_signature_data_returns a _))). reflexivity.
Defined.


Lemma Coefficient_str_by_count_witness :
  let V := FunctionSpace (DomainOne mesh_2d) (Some P1) in
  Coefficient___str__ (mkCoefficient 0 7 V [] None None) = "w_7"
  /\ Coefficient___str__ (mkCoefficient 0 12 V [] None None) = "w_{12}".
Proof.
  intros V. split.
  - apply (proj1 (Coefficient_str_by_count (mkCoefficient 0 7 V [] None None)
                    (mkCoefficient 0 7 V [] None None))).
    simpl. lia.
  - apply (proj1 (proj2 (Coefficient_str_by_count
                           (mkCoefficient 0 12 V [] None None)
                           (mkCoefficient 0 12 V [] None None)))).
    simpl. lia.
Defined.

Lemma Coefficients_on_mixed_space_witness :
  let V := FunctionSpace (DomainOne mesh_2d) (Some P1) in
  let W := FunctionSpace (DomainOne mesh_3d) (Some P1_tet) in
  let M := MixedFunctionSpace [V; W] [Some P1; Some P1_tet] in
  (exists cs,
     (Coefficients (fun _ => Ok []) (ArgSpace M) (mkGlobals 0 0)).1
     = Ok (map VCoefficient cs)
     /\ Forall2 (fun c V => _ufl_function_space c = V
                            /\ _part c = None /\ _parent c = None) cs [V; W])
  /\ (2 <= length [V; W] ->
      (Coefficient___init__ (ArgSpace M) None None None (mkGlobals 0 0)).1
      = Raise (UFLException multiple_elements_msg)).
Proof.
  intros V W M.
  apply (Coefficients_on_mixed_space (fun _ => Ok []) [V; W] M (mkGlobals 0 0)).
  - reflexivity.
  - repeat constructor; eexists; reflexivity.
Defined.

Example Coefficients_counts :
  let V := FunctionSpace (DomainOne mesh_2d) (Some P1) in
  let W := FunctionSpace (DomainOne mesh_3d) (Some P1_tet) in
  let M := MixedFunctionSpace [V; W] [Some P1; Some P1_tet] in
  Coefficients (fun _ => Ok []) (ArgSpace M) (mkGlobals 5 0)
  = (Ok [VCoefficient (mkCoefficient 0 5 V [] None None);
         VCoefficient (mkCoefficient 1 6 W [] None None)],
     mkGlobals 7 2).
Proof. vm_compute. reflexivity. Qed.

End coefficient_facts.

(** ** Variables *)

Module variable2_facts.

Import variable2.

(** The body of the module binds no name [Variable]. *)
Lemma Variable_is_unbound : module_globals !! "Variable" = None.
Proof. vm_compute. reflexivity. Qed.

(** Had the body of [__eq__] named the class it sits in, equality would
    compare the counts of the labels and nothing else. *)
Lemma NewVariable_eq_with_own_class (globals : gmap string Binding)
    (v w : NewVariable) (other : Object) :
  globals !! "Variable" = Some (BClass NewVariable_class) ->
  NewVariable___eq__ globals v (OExpr (NewVariableExpr w))
  = Ok (bool_decide (_count (_label v) = _count (_label w)))
  /\ ((forall w', other <> OExpr (NewVariableExpr w')) ->
      NewVariable___eq__ globals v other = Ok false).
Proof.
  intros Hg. unfold NewVariable___eq__, load_global. rewrite Hg. simpl.
  split; [reflexivity|].
  intros Hother. destruct other as [[r|l|w']| |z|s]; try reflexivity.
  destruct (Hother w'). reflexivity.
Qed.

(** C4, as the code has it: [NewVariable.__eq__] tests
    [isinstance(other, Variable)], and the module neither defines nor
    imports a name [Variable]; every comparison of a variable, also with
    a variable of the same label count, raises [NameError] instead of
    answering. *)
Theorem NewVariable_eq_raises_NameError (v : NewVariable) (other : Object) :
  NewVariable___eq__ module_globals v other = Raise (NameError "Variable")
  /\ NewVariable___eq__ module_globals
       (mkNewVariable (OtherExpr "u") (mkLabel 0))
       (OExpr (NewVariableExpr (mkNewVariable (OtherExpr "u") (mkLabel 0))))
     = Raise (NameError "Variable").
Proof.
  unfold NewVariable___eq__, load_global. rewrite Variable_is_unbound.
  split; reflexivity.
Qed.

(** *** Construction and printing *)

(** X21: A variable is built exactly from an expression and a label or no
    label.  The expression is checked first; a construction that is
    refused leaves the label counter where it was, and so does one with a
    label supplied, which is stored as it is. *)
Theorem NewVariable_init_characterised (expression label : Object)
    (globalcount : Z) :
  let r := NewVariable___init__ expression label globalcount in
  (returns r.1 <-> (exists e, expression = OExpr e)
                   /\ (label = ONone \/ exists l, label = OExpr (LabelExpr l)))
  /\ (forall e l, expression = OExpr e -> label = OExpr (LabelExpr l) ->
        r = (Ok (mkNewVariable e l), globalcount))
  /\ (forall v, r.1 = Ok v ->
        OExpr (_expression v) = expression
        /\ operands v = [_expression v; LabelExpr (_label v)])
  /\ (raises r.1 -> r.2 = globalcount)
  /\ ((forall e, expression <> OExpr e) ->
      r.1 = Raise (UFLException "Expecting an Expr."))
  /\ (forall e, expression = OExpr e -> label <> ONone ->
      (forall l, label <> OExpr (LabelExpr l)) ->
      r.1 = Raise (UFLException "Expecting a Label.")).
Proof.
  intros r. subst r. unfold NewVariable___init__, Label___init__, returns, raises.
  destruct (counted None globalcount) as [c n].
  destruct expression as [e| |z|s0]; [|simpl; naive_solver..].
  destruct label as [[r|l|w]| |z|s0]; simpl; naive_solver.
Qed.

Lemma NewVariable_init_characterised_witness :
  NewVariable___init__ (OExpr (OtherExpr "u")) (OExpr (LabelExpr (mkLabel 3))) 8
  = (Ok (mkNewVariable (OtherExpr "u") (mkLabel 3)), 8%Z).
Proof.
  apply (proj1 (proj2 (NewVariable_init_characterised
                         (OExpr (OtherExpr "u")) (OExpr (LabelExpr (mkLabel 3))) 8))
           (OtherExpr "u") (mkLabel 3)); reflexivity.
Defined.


Example Label_repr_examples :
  Label___repr__ (mkLabel 0) = "Label(0)"
  /\ Label___repr__ (mkLabel 42) = "Label(42)"
  /\ Label___repr__ (mkLabel (-7)) = "Label(-7)".
Proof. vm_compute. repeat split. Qed.

End variable2_facts.

(** ** Transform propagation *)

Module apply_transforms_facts.

Import apply_transforms.

(** Induction over expressions, with the hypothesis for every operand. *)
Lemma Expr_nested_ind (P : Expr -> Prop) :
  (forall fa r, P (Terminal fa r)) ->
  (forall f, P f -> P (ReferenceValue f)) ->
  (forall A op, P A -> P op -> P (Transformed A op)) ->
  (forall n l, Forall P l -> P (Operator n l)) ->
  forall e, P e.
Proof.
  intros HTerminal HReferenceValue HTransformed HOperator.
  fix IH 1. intros [fa r|f|A op|n l].
  - apply HTerminal.
  - apply HReferenceValue, IH.
  - apply HTransformed; apply IH.
  - apply HOperator. induction l as [|x l IHl]; constructor.
    + apply IH.
    + exact IHl.
Qed.

Lemma same_expr_refl (e : Expr) : same_expr e e = true.
Proof.
  induction e as [fa r|f IH|A op IHA IHop|n l IH] using Expr_nested_ind; simpl.
  - by rewrite !bool_decide_eq_true_2.
  - exact IH.
  - by rewrite IHA, IHop.
  - rewrite bool_decide_eq_true_2 by reflexivity. simpl.
    induction IH as [|x l Hx _ IHl]; [reflexivity|].
    by rewrite Hx, IHl.
Qed.

Lemma untouched_refl (l : list Expr) :
  forallb (fun '(a, b) => same_expr a b) (zip l l) = true.
Proof.
  induction l as [|x l IH]; simpl; [reflexivity|].
  by rewrite same_expr_refl, IH.
Qed.

Lemma reuse_if_untouched_same (o : Expr) :
  reuse_if_untouched o (ufl_operands o) = Ok o.
Proof. unfold reuse_if_untouched. by rewrite untouched_refl. Qed.

(** How the traversal unfolds under a ruleset that handles a node by its
    [expr] default. *)
Lemma map_expr_dag_Operator (function : MultiFunction) rule n l :
  expr function = Some (OnOperands rule) ->
  map_expr_dag function (Operator n l)
  = ops ← (fix go (l : list Expr) : Result (list Expr) :=
             match l with
             | [] => Ok []
             | x :: l => r ← map_expr_dag function x; rs ← go l; Ok (r :: rs)
             end) l;
    rule (Operator n l) ops.
Proof. intros H. simpl. rewrite H. reflexivity. Qed.

Lemma dispatcher_fixes_operands (l : list Expr) :
  Forall (fun e => map_expr_dag TransformedRuleDispatcher e = Ok e) l ->
  (fix go (l : list Expr) : Result (list Expr) :=
     match l with
     | [] => Ok []
     | x :: l =>
       r ← map_expr_dag TransformedRuleDispatcher x; rs ← go l; Ok (r :: rs)
     end) l = Ok l.
Proof.
  induction 1 as [|x l Hx _ IHl]; [reflexivity|].
  rewrite Hx. simpl. rewrite IHl. reflexivity.
Qed.

Lemma dispatcher_fixes_Transformed_free (e : Expr) :
  Transformed_free e = true -> map_expr_dag TransformedRuleDispatcher e = Ok e.
Proof.
  induction e as [fa r|f IH|A op _ _|n l IH] using Expr_nested_ind;
    intros Hfree.
  - reflexivity.
  - simpl in Hfree. simpl. rewrite (IH Hfree). simpl.
    exact (reuse_if_untouched_same (ReferenceValue f)).
  - discriminate.
  - rewrite (map_expr_dag_Operator _ reuse_if_untouched) by reflexivity.
    rewrite dispatcher_fixes_operands.
    + exact (reuse_if_untouched_same (Operator n l)).
    + simpl in Hfree. rewrite forallb_forall in Hfree.
      rewrite Forall_forall in IH |- *. intros x Hx.
      apply IH; [assumption|]. apply Hfree. by apply list_elem_of_In.
Qed.

(** C5: on a DAG without [Transformed] nodes the pass succeeds and
    returns the DAG it was given, so that every function of the result,
    its signature data among them, has the value it has on the input. *)
Theorem apply_transforms_fixes_Transformed_free (e : Expr) :
  Transformed_free e = true ->
  apply_transforms e = Ok e
  /\ (forall (S : Type) (signature_data : Expr -> S),
        signature_data <$> apply_transforms e = Ok (signature_data e)).
Proof.
  intros Hfree.
  assert (apply_transforms e = Ok e) as H
    by (apply dispatcher_fixes_Transformed_free; exact Hfree).
  split; [exact H|]. intros S signature_data. rewrite H. reflexivity.
Qed.

Lemma apply_transforms_fixes_Transformed_free_witness :
  let u := Terminal true "w_0" in
  let e := Operator "Sum" [ReferenceValue u; Operator "Grad" [ReferenceValue u]] in
  apply_transforms e = Ok e.
Proof.
  intros u e.
  apply (proj1 (apply_transforms_fixes_Transformed_free e eq_refl)).
Defined.

(** C6: under the inner ruleset a reference-value node over a terminal
    form argument becomes [Transformed] of that very node and the carried
    operator, the operand not being visited; over any other operand the
    rule stops on a failed assertion. *)
Theorem reference_value_wraps_or_asserts (transform_op f : Expr) :
  let o := ReferenceValue f in
  map_expr_dag (TransformedRuleset transform_op) o
  = reference_value_rule transform_op o
  /\ (_ufl_is_terminal_ f = true -> is_FormArgument f = true ->
      reference_value_rule transform_op o = Ok (Transformed o transform_op))
  /\ (_ufl_is_terminal_ f = false \/ is_FormArgument f = false ->
      reference_value_rule transform_op o = Raise AssertionError).
Proof.
  intros o. split; [reflexivity|]. unfold reference_value_rule. simpl. split.
  - intros -> ->. reflexivity.
  - intros [-> | H]; [reflexivity|].
    rewrite H. destruct (_ufl_is_terminal_ f); reflexivity.
Qed.

Lemma reference_value_wraps_or_asserts_witness :
  let op := Terminal false "op" in
  let o := ReferenceValue (Terminal true "w_0") in
  reference_value_rule op o = Ok (Transformed o op).
Proof.
  intros op o.
  apply (proj1 (proj2 (reference_value_wraps_or_asserts op (Terminal true "w_0"))));
    reflexivity.
Defined.

(** *** What the pass computes *)

Lemma same_expr_eq (a b : Expr) : same_expr a b = true -> a = b.
Proof.
  revert b.
  induction a as [fa r|f IH|A op IHA IHop|n l IH] using Expr_nested_ind;
    intros [fa' r'|f'|A' op'|n' l'] H; simpl in H; try discriminate.
  - apply andb_true_iff in H as [H1 H2].
    apply bool_decide_eq_true in H1, H2. congruence.
  - f_equal. by apply IH.
  - apply andb_true_iff in H as [H1 H2]. f_equal; [by apply IHA | by apply IHop].
  - apply andb_true_iff in H as [H1 H2]. apply bool_decide_eq_true in H1.
    subst n'. f_equal. revert l' H2.
    induction IH as [|x l Hx _ IHl]; intros [|y k] H; try discriminate;
      [reflexivity|].
    apply andb_true_iff in H as [H1 H2]. f_equal; [by apply Hx | by apply IHl].
Qed.

Lemma untouched_eq (l k : list Expr) :
  length l = length k ->
  forallb (fun '(a, b) => same_expr a b) (zip l k) = true -> l = k.
Proof.
  revert k. induction l as [|x l IH]; intros [|y k] Hlen H; try discriminate;
    [reflexivity|].
  simpl in H. apply andb_true_iff in H as [H1 H2].
  f_equal; [by apply same_expr_eq | apply IH; [by injection Hlen | exact H2]].
Qed.

(** With as many results as operands, reusing and rebuilding give the
    same structure. *)
Lemma reuse_if_untouched_reconstruct (o : Expr) (ops : list Expr) :
  length (ufl_operands o) = length ops ->
  reuse_if_untouched o ops = _ufl_expr_reconstruct_ o ops.
Proof.
  intros Hlen. unfold reuse_if_untouched.
  destruct (forallb _ _) eqn:Hsame; [|reflexivity].
  apply untouched_eq in Hsame; [|exact Hlen]. subst ops.
  destruct o as [fa r|f|A op|n l]; reflexivity.
Qed.

Lemma map_operands (function : MultiFunction) (p : Expr -> bool)
    (w : Expr -> Expr) (l : list Expr) :
  Forall (fun x => map_expr_dag function x
                   = if p x then Ok (w x) else Raise AssertionError) l ->
  (fix go (l : list Expr) : Result (list Expr) :=
     match l with
     | [] => Ok []
     | x :: l => r ← map_expr_dag function x; rs ← go l; Ok (r :: rs)
     end) l
  = if forallb p l then Ok (map w l) else Raise AssertionError.
Proof.
  induction 1 as [|x l Hx _ IHl]; [reflexivity|].
  rewrite Hx. simpl. destruct (p x); simpl; [|reflexivity].
  rewrite IHl. destruct (forallb p l); reflexivity.
Qed.

Lemma inner_ruleset_result (op A : Expr) :
  map_expr_dag (TransformedRuleset op) A
  = if on_form_arguments A then Ok (wrap_reference_values op A)
    else Raise AssertionError.
Proof.
  induction A as [fa r|f IH|A op' IHA IHop|n l IH] using Expr_nested_ind.
  - reflexivity.
  - simpl. unfold reference_value_rule. simpl.
    destruct (_ufl_is_terminal_ f); simpl; [|reflexivity].
    destruct (is_FormArgument f); reflexivity.
  - simpl. rewrite IHA. destruct (on_form_arguments A); simpl; [|reflexivity].
    rewrite IHop. destruct (on_form_arguments op'); simpl; [|reflexivity].
    apply (reuse_if_untouched_reconstruct (Transformed A op')). reflexivity.
  - rewrite (map_expr_dag_Operator _ reuse_if_untouched) by reflexivity.
    rewrite (map_operands _ on_form_arguments (wrap_reference_values op) l IH).
    simpl. destruct (forallb on_form_arguments l); simpl; [|reflexivity].
    rewrite reuse_if_untouched_reconstruct; [reflexivity|].
    simpl. by rewrite length_map.
Qed.

(** X23: The inner ruleset, for any operator and any DAG: when every
    reference value sits on a terminal form argument it puts the operator
    around each reference value and changes nothing else; when one does
    not, the traversal stops on the failed assertion.  The pass as a whole
    does just that with a [Transformed] node over a DAG free of such
    nodes. *)
Theorem apply_transforms_wraps_reference_values (op A : Expr) :
  map_expr_dag (TransformedRuleset op) A
  = (if on_form_arguments A then Ok (wrap_reference_values op A)
     else Raise AssertionError)
  /\ (Transformed_free A = true -> Transformed_free op = true ->
      apply_transforms (Transformed A op)
      = if on_form_arguments A then Ok (wrap_reference_values op A)
        else Raise AssertionError).
Proof.
  split; [apply inner_ruleset_result|].
  intros HA Hop. unfold apply_transforms, map_integrand_dags. simpl.
  rewrite (dispatcher_fixes_Transformed_free A HA). simpl.
  rewrite (dispatcher_fixes_Transformed_free op Hop). simpl.
  apply inner_ruleset_result.
Qed.

Lemma apply_transforms_wraps_reference_values_witness :
  let op := Terminal false "op" in
  let u := ReferenceValue (Terminal true "w_0") in
  let A := Operator "Product" [u; Operator "Grad" [u]] in
  apply_transforms (Transformed A op)
  = Ok (Operator "Product" [Transformed u op; Operator "Grad" [Transformed u op]]).
Proof.
  intros op u A.
  apply (proj2 (apply_transforms_wraps_reference_values op A)); reflexivity.
Defined.

Lemma dispatcher_fixes_wrapped (op A : Expr) :
  Transformed_free A = true -> Transformed_free op = true ->
  on_form_arguments A = true ->
  map_expr_dag TransformedRuleDispatcher (wrap_reference_values op A)
  = Ok (wrap_reference_values op A).
Proof.
  intros HA Hop.
  induction A as [fa r|f IH|A op' _ _|n l IH] using Expr_nested_ind; intros Hwf.
  - reflexivity.
  - assert (map_expr_dag TransformedRuleDispatcher (ReferenceValue f)
            = Ok (ReferenceValue f)) as Hrv
      by (by apply dispatcher_fixes_Transformed_free).
    change (wrap_reference_values op (ReferenceValue f))
      with (Transformed (ReferenceValue f) op).
    change (map_expr_dag TransformedRuleDispatcher (Transformed (ReferenceValue f) op))
      with (ops ← (a ← map_expr_dag TransformedRuleDispatcher (ReferenceValue f);
                   b ← map_expr_dag TransformedRuleDispatcher op;
                   Ok [a; b]);
            transformed_rule (Transformed (ReferenceValue f) op) ops).
    rewrite Hrv, (dispatcher_fixes_Transformed_free op Hop).
    change (map_expr_dag (TransformedRuleset op) (ReferenceValue f)
            = Ok (Transformed (ReferenceValue f) op)).
    rewrite inner_ruleset_result, Hwf. reflexivity.
  - discriminate.
  - change (wrap_reference_values op (Operator n l))
      with (Operator n (map (wrap_reference_values op) l)).
    rewrite (map_expr_dag_Operator _ reuse_if_untouched) by reflexivity.
    rewrite dispatcher_fixes_operands.
    + exact (reuse_if_untouched_same (Operator n (map (wrap_reference_values op) l))).
    + simpl in HA, Hwf. rewrite forallb_forall in HA, Hwf.
      rewrite Forall_forall in IH. apply Forall_forall.
      intros y Hy. apply list_elem_of_fmap in Hy as (x & -> & Hx).
      apply IH; [assumption | |]; [apply HA | apply Hwf]; by apply list_elem_of_In.
Qed.

(** X24: One layer of transform is pushed once and for all: with [A] and [op]
    free of [Transformed] nodes, the result of the pass on
    [Transformed(A, op)] is a DAG that the pass gives back as it is. *)
Theorem apply_transforms_twice (op A e : Expr) :
  Transformed_free A = true -> Transformed_free op = true ->
  apply_transforms (Transformed A op) = Ok e ->
  apply_transforms e = Ok e.
Proof.
  intros HA Hop He.
  unfold apply_transforms, map_integrand_dags in He. simpl in He.
  rewrite (dispatcher_fixes_Transformed_free A HA) in He. simpl in He.
  rewrite (dispatcher_fixes_Transformed_free op Hop) in He. simpl in He.
  rewrite inner_ruleset_result in He.
  destruct (on_form_arguments A) eqn:Hwf; [|discriminate].
  injection He as <-. by apply dispatcher_fixes_wrapped.
Qed.

Lemma apply_transforms_twice_witness :
  let op := Terminal false "op" in
  let u := ReferenceValue (Terminal true "w_0") in
  let e := Operator "Sum" [Transformed u op; Terminal false "x"] in
  apply_transforms e = Ok e.
Proof.
  intros op u e.
  apply (apply_transforms_twice op (Operator "Sum" [u; Terminal false "x"]) e);
    reflexivity.
Defined.

Lemma wrap_on_form_arguments (op A : Expr) :
  on_form_arguments op = true -> on_form_arguments A = true ->
  on_form_arguments (wrap_reference_values op A) = true.
Proof.
  intros Hop.
  induction A as [fa r|f IH|A op' IHA IHop|n l IH] using Expr_nested_ind;
    intros HA; simpl in *.
  - reflexivity.
  - by rewrite HA, Hop.
  - apply andb_true_iff in HA as [H1 H2]. by rewrite IHA, IHop.
  - rewrite forallb_forall in HA. apply forallb_forall. intros y Hy.
    apply in_map_iff in Hy as (x & <- & Hx).
    rewrite Forall_forall in IH. apply IH; [by apply list_elem_of_In | by apply HA].
Qed.

Lemma dispatcher_result (e : Expr) :
  (exists e', map_expr_dag TransformedRuleDispatcher e = Ok e'
              /\ (on_form_arguments e = true -> on_form_arguments e' = true))
  \/ (map_expr_dag TransformedRuleDispatcher e = Raise AssertionError
      /\ on_form_arguments e = false).
Proof.
  induction e as [fa r|f IH|A op IHA IHop|n l IH] using Expr_nested_ind.
  - left. exists (Terminal fa r). split; [reflexivity | auto].
  - change (map_expr_dag TransformedRuleDispatcher (ReferenceValue f))
      with (ops ← (r ← map_expr_dag TransformedRuleDispatcher f; Ok [r]);
            reuse_if_untouched (ReferenceValue f) ops).
    destruct IH as [(f' & Hf & Hwf)|[Hf Hwf]].
    + left. rewrite Hf. simpl.
      rewrite reuse_if_untouched_reconstruct by reflexivity. simpl.
      exists (ReferenceValue f'). split; [reflexivity|].
      intros H. simpl in H. apply andb_true_iff in H as [Ht Hfa].
      destruct f; try discriminate. injection Hf as <-.
      simpl in *. exact Hfa.
    + right. rewrite Hf. split; [reflexivity|].
      destruct f; [simpl in Hf; discriminate | reflexivity..].
  - change (map_expr_dag TransformedRuleDispatcher (Transformed A op))
      with (ops ← (a ← map_expr_dag TransformedRuleDispatcher A;
                   b ← map_expr_dag TransformedRuleDispatcher op;
                   Ok [a; b]);
            transformed_rule (Transformed A op) ops).
    destruct IHA as [(A' & HA & HwfA)|[HA HwfA]].
    + rewrite HA. simpl. destruct IHop as [(op'' & Hop & Hwfop)|[Hop Hwfop]].
      * rewrite Hop. simpl. rewrite inner_ruleset_result.
        destruct (on_form_arguments A') eqn:HA'.
        -- left. eexists. split; [reflexivity|]. intros H.
           apply andb_true_iff in H as [H1 H2].
           apply wrap_on_form_arguments; [by apply Hwfop | reflexivity || exact HA'].
        -- right. split; [reflexivity|].
           simpl. destruct (on_form_arguments A) eqn:E; [|reflexivity].
           discriminate (HwfA eq_refl).
      * right. rewrite Hop. split; [reflexivity|].
        simpl. by rewrite Hwfop, andb_false_r.
    + right. rewrite HA. split; [reflexivity|]. simpl. by rewrite HwfA.
  - rewrite (map_expr_dag_Operator _ reuse_if_untouched) by reflexivity.
    assert ((exists l',
               (fix go (l : list Expr) : Result (list Expr) :=
                  match l with
                  | [] => Ok []
                  | x :: l =>
                    r ← map_expr_dag TransformedRuleDispatcher x;
                    rs ← go l; Ok (r :: rs)
                  end) l = Ok l'
               /\ length l' = length l
               /\ (forallb on_form_arguments l = true ->
                   forallb on_form_arguments l' = true))
            \/ ((fix go (l : list Expr) : Result (list Expr) :=
                   match l with
                   | [] => Ok []
                   | x :: l =>
                     r ← map_expr_dag TransformedRuleDispatcher x;
                     rs ← go l; Ok (r :: rs)
                   end) l = Raise AssertionError
                /\ forallb on_form_arguments l = false)) as Hl.
    { induction IH as [|x l Hx _ IHl].
      - left. exists []. repeat split.
      - destruct Hx as [(x' & Hx & Hwfx)|[Hx Hwfx]].
        + rewrite Hx. simpl. destruct IHl as [(l' & Hl & Hlen & Hwfl)|[Hl Hwfl]].
          * left. rewrite Hl. simpl. exists (x' :: l').
            split; [reflexivity|]. split; [simpl; by rewrite Hlen|].
            intros H. apply andb_true_iff in H as [H1 H2]. simpl.
            by rewrite Hwfx, Hwfl.
          * right. rewrite Hl. split; [reflexivity|]. by rewrite Hwfl, andb_false_r.
        + right. rewrite Hx. split; [reflexivity|]. simpl. by rewrite Hwfx. }
    destruct Hl as [(l' & -> & Hlen & Hwf)|[-> Hwf]].
    + left. simpl. rewrite reuse_if_untouched_reconstruct by (simpl; congruence).
      exists (Operator n l'). split; [reflexivity | exact Hwf].
    + right. split; [reflexivity | exact Hwf].
Qed.

(** X25: The pass never fails for want of a handler or of operands: it
    returns a DAG or stops on the assertion of the reference-value rule,
    and the latter only when some reference value of the input does not
    sit on a terminal form argument.  From a DAG of which all do, it
    returns a DAG of which all do. *)
Theorem apply_transforms_fails_only_by_assertion (e : Expr) :
  (returns (apply_transforms e) \/ apply_transforms e = Raise AssertionError)
  /\ (on_form_arguments e = true ->
      exists e', apply_transforms e = Ok e' /\ on_form_arguments e' = true).
Proof.
  unfold apply_transforms, map_integrand_dags.
  destruct (dispatcher_result e) as [(e' & -> & Hwf)|[-> Hwf]].
  - split; [left; eauto|]. intros H. exists e'. split; [reflexivity | by apply Hwf].
  - split; [by right|]. intros H. congruence.
Qed.

Lemma apply_transforms_fails_only_by_assertion_witness :
  let op := Terminal false "op" in
  let u := ReferenceValue (Terminal true "w_0") in
  let e := Transformed (Transformed (Operator "Sum" [u; u]) op) (Terminal false "op2") in
  exists e', apply_transforms e = Ok e' /\ on_form_arguments e' = true.
Proof.
  intros op u e.
  apply (proj2 (apply_transforms_fails_only_by_assertion e)). reflexivity.
Defined.

(** Two transforms, one inside the other: both end up around the
    reference value, the outer one innermost. *)
Example apply_transforms_nested :
  let u := ReferenceValue (Terminal true "w_0") in
  let p := Terminal false "p" in
  let q := Terminal false "q" in
  apply_transforms (Transformed (Transformed u p) q)
  = Ok (Transformed (Transformed u q) p).
Proof. vm_compute. reflexivity. Qed.

(** The pass on a sum under a transform: the operator ends up around
    each reference value. *)
Example apply_transforms_sum :
  let op := Terminal false "op" in
  let u := ReferenceValue (Terminal true "w_0") in
  let v := ReferenceValue (Terminal true "w_1") in
  apply_transforms (Transformed (Operator "Sum" [u; v]) op)
  = Ok (Operator "Sum" [Transformed u op; Transformed v op]).
Proof. vm_compute. reflexivity. Qed.

(** A reference value over a compound node makes the pass fail. *)
Example apply_transforms_malformed :
  let op := Terminal false "op" in
  let u := ReferenceValue (Operator "Sum" [Terminal true "w_0"]) in
  apply_transforms (Transformed u op) = Raise AssertionError.
Proof. vm_compute. reflexivity. Qed.

End apply_transforms_facts.
